(** * page-search: the product crawler [site_search/crawler-mamaearth.py]

    A shallow embedding of the crawler script and the properties its
    specification states about it.

    The script is a thin composition of library calls.  Its own functions
    ([get_path_hierarchy], [Crawler.download_sitemap], [Crawler.crawl_page],
    [download_and_save]) are transcribed statement by statement.  The
    libraries they call are modelled as follows:

    - [urllib.parse] ([urlparse], [urljoin]) and [json.dumps] are pure
      and are written out after CPython 3.11;
    - the network ([requests.get]), the HTML parser ([BeautifulSoup]) and
      the sitemap library ([usp]) are fields of a [World] record: every
      theorem holds for all worlds;
    - a parsed document is a tree of tags and strings, with the three
      queries the script uses ([find], [.parent], [.text]).

    Python [str] values are lists of code points. *)

From Stdlib Require Import List NArith Bool Ascii String Lia.
Import ListNotations.

Set Warnings "-register-all".

(** ** Python strings *)

Abbreviation pystr := (list N) (only parsing).

(** The code points of an ASCII literal. *)
Fixpoint py (s : string) : pystr :=
  match s with
  | EmptyString => []
  | String a s' => N_of_ascii a :: py s'
  end.

Definition chr (a : ascii) : N := N_of_ascii a.

Fixpoint str_eqb (s t : pystr) : bool :=
  match s, t with
  | [], [] => true
  | c :: s', d :: t' => N.eqb c d && str_eqb s' t'
  | _, _ => false
  end.

(** [c in chars] for a one-character [c]. *)
Definition char_in (c : N) (chars : pystr) : bool := existsb (N.eqb c) chars.

(** [s in l] for a list of strings. *)
Definition str_in (s : pystr) (l : list pystr) : bool := existsb (str_eqb s) l.

Fixpoint startswith (s prefix : pystr) {struct prefix} : bool :=
  match prefix, s with
  | [], _ => true
  | p :: prefix', c :: s' => N.eqb p c && startswith s' prefix'
  | _ :: _, [] => false
  end.

(** [sub in s]: substring test. *)
Fixpoint contains (sub s : pystr) : bool :=
  startswith s sub ||
  match s with
  | [] => false
  | _ :: s' => contains sub s'
  end.

(** [s.lstrip(chars)], [s.rstrip(chars)] and [s.strip(chars)]. *)
Fixpoint lstrip (chars s : pystr) : pystr :=
  match s with
  | [] => []
  | c :: s' => if char_in c chars then lstrip chars s' else s
  end.

Definition rstrip (chars s : pystr) : pystr := rev (lstrip chars (rev s)).

Definition strip (chars s : pystr) : pystr := rstrip chars (lstrip chars s).

(** [s.partition(c)] for a one-character separator: [None] when [c] does
    not occur, else the text before and after its first occurrence. *)
Fixpoint partition (c : N) (s : pystr) : option (pystr * pystr) :=
  match s with
  | [] => None
  | d :: s' =>
      if N.eqb d c then Some ([], s')
      else match partition c s' with
           | Some (before, after) => Some (d :: before, after)
           | None => None
           end
  end.

(** [s.split(c)] for a one-character separator: never empty. *)
Fixpoint split (c : N) (s : pystr) : list pystr :=
  match s with
  | [] => [ [] ]
  | d :: s' =>
      match split c s' with
      | [] => [ [d] ]
      | w :: ws => if N.eqb d c then [] :: w :: ws else (d :: w) :: ws
      end
  end.

(** [sep.join(l)]. *)
Fixpoint join (sep : pystr) (l : list pystr) : pystr :=
  match l with
  | [] => []
  | [w] => w
  | w :: ws => w ++ sep ++ join sep ws
  end.

(** The truth value of a string: [not s] is [negb (truthy s)]. *)
Definition truthy (s : pystr) : bool :=
  match s with
  | [] => false
  | _ :: _ => true
  end.

Definition is_ascii_alpha (c : N) : bool :=
  ((65 <=? c) && (c <=? 90) || (97 <=? c) && (c <=? 122))%N.

Definition is_digit (c : N) : bool := ((48 <=? c) && (c <=? 57))%N.

Definition lower_char (c : N) : N :=
  if ((65 <=? c) && (c <=? 90))%N then (c + 32)%N else c.

Definition lower (s : pystr) : pystr := map lower_char s.

(** ** Exceptions

    A Python call either returns a value or raises. *)

Inductive exception :=
  | ValueError (msg : pystr)
  | AttributeError (msg : pystr)
  | RequestException (msg : pystr)
  | ParserRejectedMarkup (msg : pystr)
  | Exception (msg : pystr).

Inductive result (A : Type) :=
  | Return (a : A)
  | Raise (e : exception).

Arguments Return {A} a.
Arguments Raise {A} e.

Definition bind {A B} (m : result A) (k : A -> result B) : result B :=
  match m with
  | Return a => k a
  | Raise e => Raise e
  end.

Notation "x <- m ;; k" := (bind m (fun x => k))
  (at level 61, m at next level, right associativity).

Definition raised {A} (m : result A) : bool :=
  match m with
  | Return _ => false
  | Raise _ => true
  end.

(** ** [urllib.parse] *)

Module urllib.

Definition uses_relative : list pystr :=
  map py [""; "ftp"; "http"; "gopher"; "nntp"; "imap"; "wais"; "file";
          "https"; "shttp"; "mms"; "prospero"; "rtsp"; "rtspu"; "sftp";
          "svn"; "svn+ssh"; "ws"; "wss"]%string.

Definition uses_netloc : list pystr :=
  map py [""; "ftp"; "http"; "gopher"; "nntp"; "telnet"; "imap"; "wais";
          "file"; "mms"; "https"; "shttp"; "snews"; "prospero"; "rtsp";
          "rtspu"; "rsync"; "svn"; "svn+ssh"; "sftp"; "nfs"; "git";
          "git+ssh"; "ws"; "wss"]%string.

Definition uses_params : list pystr :=
  map py [""; "ftp"; "hdl"; "prospero"; "http"; "imap"; "https"; "shttp";
          "rtsp"; "rtspu"; "sip"; "sips"; "mms"; "sftp"; "tel"]%string.

Definition scheme_char (c : N) : bool :=
  is_ascii_alpha c || is_digit c || char_in c (py "+-.").

(** Leading C0 control characters and spaces are dropped; tab, CR and LF
    are removed everywhere. *)
Definition c0_control_or_space (c : N) : bool := (c <=? 32)%N.

Fixpoint lstrip_c0 (s : pystr) : pystr :=
  match s with
  | [] => []
  | c :: s' => if c0_control_or_space c then lstrip_c0 s' else s
  end.

Definition remove_unsafe (s : pystr) : pystr :=
  filter (fun c => negb (char_in c [9; 10; 13]%N)) s.

Record ParseResult := {
  scheme : pystr;
  netloc : pystr;
  path : pystr;
  params : pystr;
  query : pystr;
  fragment : pystr
}.

(** [_splitnetloc(url, 2)] on a [url] whose leading [//] was removed: the
    network location runs up to the first of [/], [?], [#]. *)
Fixpoint splitnetloc (url : pystr) : pystr * pystr :=
  match url with
  | [] => ([], [])
  | c :: url' =>
      if char_in c (py "/?#") then ([], url)
      else let (domain, rest) := splitnetloc url' in (c :: domain, rest)
  end.

(** The scheme, when the text before the first colon is one. *)
Definition split_scheme (url default : pystr) : pystr * pystr :=
  match partition (chr ":") url with
  | Some (c :: before, after) =>
      if is_ascii_alpha c && forallb scheme_char (c :: before)
      then (lower (c :: before), after)
      else (default, url)
  | _ => (default, url)
  end.

(** [urlsplit(url, scheme)].  It raises [ValueError] on a network
    location with an unmatched square bracket.  (CPython also checks
    network locations that contain non-ASCII characters under NFKC
    normalisation, and from 3.11.4 the text inside the brackets; neither
    check is modelled, such hosts are accepted here.) *)
Definition urlsplit (url default : pystr) : result ParseResult :=
  let url := remove_unsafe (lstrip_c0 url) in
  let default := remove_unsafe (strip (map N.of_nat (seq 0 33)) default) in
  let (scheme, url) := split_scheme url default in
  netloc_url <-
    (if startswith url (py "//") then
       let (netloc, url) := splitnetloc (skipn 2 url) in
       if xorb (char_in (chr "[") netloc) (char_in (chr "]") netloc)
       then Raise (ValueError (py "Invalid IPv6 URL"))
       else Return (netloc, url)
     else Return ([], url)) ;;
  let (netloc, url) := netloc_url : pystr * pystr in
  let (url, fragment) :=
    match partition (chr "#") url with
    | Some (u, f) => (u, f)
    | None => (url, [])
    end in
  let (url, query) :=
    match partition (chr "?") url with
    | Some (u, q) => (u, q)
    | None => (url, [])
    end in
  Return {| scheme := scheme; netloc := netloc; path := url; params := [];
            query := query; fragment := fragment |}.

(** [_splitparams(url)], called when [';' in url]: the parameters of the
    last path segment. *)
Definition splitparams (url : pystr) : pystr * pystr :=
  if char_in (chr "/") url then
    (* i = url.find(';', url.rfind('/')) *)
    let segments := split (chr "/") url in
    let last_segment := last segments [] in
    let front := removelast segments in
    match partition (chr ";") last_segment with
    | Some (before, after) => (join (py "/") (front ++ [before]), after)
    | None => (url, [])
    end
  else
    match partition (chr ";") url with
    | Some (before, after) => (before, after)
    | None => (url, [])
    end.

(** [urlparse(url, scheme)]. *)
Definition urlparse (url default : pystr) : result ParseResult :=
  r <- urlsplit url default ;;
  if str_in (scheme r) uses_params && char_in (chr ";") (path r) then
    let (url, params) := splitparams (path r) in
    Return {| scheme := scheme r; netloc := netloc r; path := url;
              params := params; query := query r; fragment := fragment r |}
  else Return r.

(** [urlunparse]: the parameters are put back behind the path, then
    [urlunsplit] reassembles the URL. *)
Definition urlunparse (r : ParseResult) : pystr :=
  let url :=
    if truthy (params r) then path r ++ py ";" ++ params r else path r in
  let url :=
    if truthy (netloc r)
       || (truthy (scheme r) && str_in (scheme r) uses_netloc
           && negb (startswith url (py "//")))
    then
      let url :=
        if truthy url && negb (startswith url (py "/"))
        then py "/" ++ url else url in
      py "//" ++ netloc r ++ url
    else url in
  let url := if truthy (scheme r) then scheme r ++ py ":" ++ url else url in
  let url := if truthy (query r) then url ++ py "?" ++ query r else url in
  if truthy (fragment r) then url ++ py "#" ++ fragment r else url.

End urllib.

(** The path resolution of [urljoin]: [..] pops a segment, [.] is dropped. *)
Fixpoint resolve_segments (segments resolved_path : list pystr) : list pystr :=
  match segments with
  | [] => resolved_path
  | seg :: segments' =>
      if str_eqb seg (py "..") then
        resolve_segments segments' (removelast resolved_path)
      else if str_eqb seg (py ".") then
        resolve_segments segments' resolved_path
      else resolve_segments segments' (resolved_path ++ [seg])
  end.

(** [segments[1:-1] = filter(None, segments[1:-1])]. *)
Definition drop_empty_inner (segments : list pystr) : list pystr :=
  match segments with
  | [] => []
  | [s] => [s]
  | s :: rest => s :: filter truthy (removelast rest) ++ [last rest []]
  end.

(** [urljoin(base, url)]. *)
Definition urljoin (base url : pystr) : result pystr :=
  if negb (truthy base) then Return url
  else if negb (truthy url) then Return base
  else
    b <- urllib.urlparse base [] ;;
    u <- urllib.urlparse url (urllib.scheme b) ;;
    if negb (str_eqb (urllib.scheme u) (urllib.scheme b))
       || negb (str_in (urllib.scheme u) urllib.uses_relative)
    then Return url
    else if str_in (urllib.scheme u) urllib.uses_netloc
            && truthy (urllib.netloc u)
    then Return (urllib.urlunparse u)
    else
      let netloc :=
        if str_in (urllib.scheme u) urllib.uses_netloc
        then urllib.netloc b else urllib.netloc u in
      if negb (truthy (urllib.path u)) && negb (truthy (urllib.params u))
      then
        Return (urllib.urlunparse
          {| urllib.scheme := urllib.scheme u; urllib.netloc := netloc;
             urllib.path := urllib.path b; urllib.params := urllib.params b;
             urllib.query :=
               if truthy (urllib.query u) then urllib.query u
               else urllib.query b;
             urllib.fragment := urllib.fragment u |})
      else
        let base_parts := split (chr "/") (urllib.path b) in
        let base_parts :=
          if truthy (last base_parts []) then removelast base_parts
          else base_parts in
        let segments :=
          if startswith (urllib.path u) (py "/")
          then split (chr "/") (urllib.path u)
          else drop_empty_inner
                 (base_parts ++ split (chr "/") (urllib.path u)) in
        let resolved_path := resolve_segments segments [] in
        let resolved_path :=
          if str_in (last segments []) [py "."; py ".."]
          then resolved_path ++ [ [] ] else resolved_path in
        let joined := join (py "/") resolved_path in
        Return (urllib.urlunparse
          {| urllib.scheme := urllib.scheme u; urllib.netloc := netloc;
             urllib.path := if truthy joined then joined else py "/";
             urllib.params := urllib.params u;
             urllib.query := urllib.query u;
             urllib.fragment := urllib.fragment u |}).

(** ** The URL path hierarchy (lines 29-57) *)

(** The loop body: [prefix += directory; result.append(prefix);
    prefix += '/']. *)
Fixpoint hierarchy_loop (directories : list pystr) (prefix : pystr)
    (result : list pystr) : list pystr :=
  match directories with
  | [] => result
  | directory :: directories' =>
      let prefix := prefix ++ directory in
      let result := result ++ [prefix] in
      let prefix := prefix ++ py "/" in
      hierarchy_loop directories' prefix result
  end.

Definition get_path_hierarchy (url : pystr) : result (list pystr) :=
  parsed_url <- urllib.urlparse url [] ;;
  let path := urllib.path parsed_url in
  if negb (truthy path) then Return []
  else
    Return (hierarchy_loop (split (chr "/") (strip (py "/") path)) [] []).

(** ** Parsed documents ([bs4])

    A document is a tree: tags with their [class] attribute values and
    contents, text strings, and comments (which carry no text). *)

Inductive PageElement :=
  | Tag (name : pystr) (class : list pystr) (contents : list PageElement)
  | NavigableString (s : pystr)
  | Comment (s : pystr).

(** [element.text]: all the strings below the element, concatenated. *)
Fixpoint text (e : PageElement) : pystr :=
  match e with
  | Tag _ _ contents => flat_map text contents
  | NavigableString s => s
  | Comment _ => []
  end.

(** An element found in a document, with its [.parent]. *)
Record Found := {
  parent : PageElement;
  element : PageElement
}.

(** A tag of the given name; with [attrs={'class': c}], one of whose
    class values is [c]. *)
Definition tag_matches (name : pystr) (class_ : option pystr)
    (e : PageElement) : bool :=
  match e with
  | Tag n classes _ =>
      str_eqb n name &&
      match class_ with
      | Some c => str_in c classes
      | None => true
      end
  | _ => false
  end.

(** [root.find(name, attrs)]: the first matching tag below [root], in
    document order; [None] when there is none. *)
Fixpoint find (root : PageElement) (name : pystr) (class_ : option pystr)
    : option Found :=
  match root with
  | Tag _ _ contents =>
      (fix scan (l : list PageElement) : option Found :=
         match l with
         | [] => None
         | child :: l' =>
             if tag_matches name class_ child
             then Some {| parent := root; element := child |}
             else match find child name class_ with
                  | Some f => Some f
                  | None => scan l'
                  end
         end) contents
  | _ => None
  end.

(** ** The world outside the script *)

(** [requests.Response]: [resp.ok] is false exactly for the statuses
    [raise_for_status] rejects, 400 to 599. *)
Record Response := {
  status_code : N;
  content : list N
}.

Definition ok (resp : Response) : bool :=
  negb ((400 <=? status_code resp) && (status_code resp <? 600))%N.

(** [usp] sitemaps. *)
Record SitemapPage := {
  url : pystr
}.

Inductive AbstractSitemap :=
  | InvalidSitemap (url reason : pystr)
  | PagesSitemap (url : pystr) (pages : list SitemapPage)
  | IndexWebsiteSitemap (url : pystr) (sub_sitemaps : list AbstractSitemap).

Fixpoint all_pages (s : AbstractSitemap) : list SitemapPage :=
  match s with
  | InvalidSitemap _ _ => []
  | PagesSitemap _ pages => pages
  | IndexWebsiteSitemap _ sub_sitemaps => flat_map all_pages sub_sitemaps
  end.

Definition isinstance_InvalidSitemap (s : AbstractSitemap) : bool :=
  match s with
  | InvalidSitemap _ _ => true
  | _ => false
  end.

Record World := {
  (** [requests.get(url)]: a response, or a raised transport error. *)
  requests_get : pystr -> result Response;
  (** [BeautifulSoup(content, 'html.parser')]. *)
  BeautifulSoup : list N -> result PageElement;
  (** [SitemapFetcher(url, web_client=None, recursion_level=0).sitemap()]. *)
  SitemapFetcher_sitemap : pystr -> result AbstractSitemap;
  (** [sitemap_tree_for_homepage(site)]. *)
  sitemap_tree_for_homepage : pystr -> result AbstractSitemap;
  (** [site_search.config.DATA_DIR]. *)
  DATA_DIR : pystr
}.

(** ** The crawler (lines 20-26 and 75-128) *)

Record ProductData := {
  title : pystr;
  description : pystr;
  subtitle : pystr;
  product_url : pystr;
  sections : option (list pystr)
}.

Record Crawler := {
  site : pystr;
  relative_urls : bool;
  split_lines : bool;
  crawler_pages : list SitemapPage
}.

Definition Crawler_init (site : pystr) (relative_urls split_lines : bool)
    : Crawler :=
  {| site := site; relative_urls := relative_urls;
     split_lines := split_lines; crawler_pages := [] |}.

Definition download_sitemap (w : World) (self : Crawler)
    (sitemap_url : option pystr) : result (list SitemapPage) :=
  match sitemap_url with
  | None | Some [] =>
      tree <- sitemap_tree_for_homepage w (site self) ;;
      Return (all_pages tree)
  | Some sitemap_url =>
      let sitemaps := [] in
      unpublished_sitemap <- SitemapFetcher_sitemap w sitemap_url ;;
      (* Skip the ones that weren't found *)
      let sitemaps :=
        if negb (isinstance_InvalidSitemap unpublished_sitemap)
        then sitemaps ++ [unpublished_sitemap] else sitemaps in
      let index_sitemap := IndexWebsiteSitemap (site self) sitemaps in
      Return (all_pages index_sitemap)
  end.

(** Attribute access on the result of a [find]: on [None] it raises
    [AttributeError]. *)
Definition attr {A} (name : string) (f : Found -> A) (o : option Found)
    : result A :=
  match o with
  | Some x => Return (f x)
  | None =>
      Raise (AttributeError
               (py "'NoneType' object has no attribute '" ++ py name
                ++ py "'"))
  end.

(** The body of the [try] block of [crawl_page] (lines 116-125). *)
Definition extract (soup : PageElement) (url : pystr)
    (sections : list pystr) : result ProductData :=
  let product_name := find soup (py "h1") (Some (py "product-name")) in
  description <-
    attr "parent" parent
      (find soup (py "h2") (Some (py "product-description-header"))) ;;
  let subtitle := find soup (py "div") (Some (py "product-subtitle")) in
  title_ <- attr "text" (fun f => text (element f)) product_name ;;
  description_ <-
    attr "text" (fun f => text (element f)) (find description (py "p") None) ;;
  subtitle_ <- attr "text" (fun f => text (element f)) subtitle ;;
  Return {| title := title_; description := description_;
            subtitle := subtitle_; product_url := url;
            sections := Some sections |}.

(** [crawl_page] gives what it printed and what it returned or raised.
    [BeautifulSoup(...)] is a constructor call, so the test
    [soup is None] of line 112 never holds. *)
Definition crawl_page (w : World) (self : Crawler) (url : pystr)
    (content_selector : pystr) : list pystr * result (option ProductData) :=
  match get_path_hierarchy url with
  | Raise e => ([], Raise e)
  | Return sections =>
      match requests_get w url with
      | Raise e => ([], Raise e)
      | Return resp =>
          if negb (ok resp) then ([], Return None)
          else
            match BeautifulSoup w (content resp) with
            | Raise e => ([], Raise e)
            | Return soup =>
                match extract soup url sections with
                | Return product => ([], Return (Some product))
                | Raise _ =>
                    ([py "Error Occured in parsing data on " ++ url],
                     Return None)
                end
            end
      end
  end.

(** ** [json.dumps] *)

Inductive json :=
  | JNull
  | JString (s : pystr)
  | JArray (items : list json)
  | JObject (members : list (pystr * json)).

Definition hexdigit (d : N) : N :=
  if (d <? 10)%N then (48 + d)%N else (87 + d)%N.

(** ['{0:04x}'.format(n)], for [n] below [0x10000]. *)
Definition format_04x (n : N) : pystr :=
  [hexdigit (n / 4096 mod 16); hexdigit (n / 256 mod 16);
   hexdigit (n / 16 mod 16); hexdigit (n mod 16)]%N.

Definition u_escape (n : N) : pystr := py "\u" ++ format_04x n.

(** The replacement of one character in [encode_basestring_ascii]:
    printable ASCII other than the quote and the backslash stands for
    itself, characters above the basic plane become a surrogate pair. *)
Definition escape_char (c : N) : pystr :=
  if (c =? 92)%N then py "\\"
  else if (c =? 34)%N then [92; 34]%N
  else if (c =? 8)%N then py "\b"
  else if (c =? 12)%N then py "\f"
  else if (c =? 10)%N then py "\n"
  else if (c =? 13)%N then py "\r"
  else if (c =? 9)%N then py "\t"
  else if ((32 <=? c) && (c <=? 126))%N then [c]
  else if (c <? 65536)%N then u_escape c
  else
    let n := (c - 65536)%N in
    let s1 := N.lor 55296 (N.land (N.shiftr n 10) 1023) in
    let s2 := N.lor 56320 (N.land n 1023) in
    u_escape s1 ++ u_escape s2.

Definition encode_basestring_ascii (s : pystr) : pystr :=
  [34%N] ++ flat_map escape_char s ++ [34%N].

(** [json.dumps(v)] with the default separators. *)
Fixpoint dumps (v : json) : pystr :=
  match v with
  | JNull => py "null"
  | JString s => encode_basestring_ascii s
  | JArray items =>
      py "[" ++ join (py ", ") (map dumps items) ++ py "]"
  | JObject members =>
      py "{" ++
      join (py ", ")
        (map (fun kv => encode_basestring_ascii (fst kv) ++ py ": "
                        ++ dumps (snd kv)) members)
      ++ py "}"
  end.

(** [product.__dict__]: the fields in declaration order. *)
Definition dict_of (product : ProductData) : json :=
  JObject
    [(py "title", JString (title product));
     (py "description", JString (description product));
     (py "subtitle", JString (subtitle product));
     (py "url", JString (product_url product));
     (py "sections",
      match sections product with
      | Some l => JArray (map JString l)
      | None => JNull
      end)].

(** ** The run (lines 130-152) *)

(** The files of interest: a path has a content or does not exist.
    There are no directories or permissions: opening for writing always
    succeeds.  A file is named by one spelling of its path: two
    spellings are two files here. *)
Definition filesystem := pystr -> option pystr.

Definition no_files : filesystem := fun _ => None.

(** The state of the files once [path], opened with mode ['w'], is
    closed: whatever it held before is gone, it holds what was written. *)
Definition write_file (fs : filesystem) (path written : pystr) : filesystem :=
  fun p => if str_eqb p path then Some written else fs p.

Definition endswith_slash (s : pystr) : bool :=
  match rev s with
  | c :: _ => N.eqb c (chr "/")
  | [] => false
  end.

(** [os.path.join(a, b)]. *)
Definition os_path_join (a b : pystr) : pystr :=
  if startswith b (py "/") then b
  else if negb (truthy a) || endswith_slash a then a ++ b
  else a ++ py "/" ++ b.

(** Lines 141-143. *)
Fixpoint full_page_urls (page_url : pystr) (pages : list SitemapPage)
    (page_urls : list pystr) : result (list pystr) :=
  match pages with
  | [] => Return page_urls
  | page :: pages' =>
      full_page_url <- urljoin page_url (url page) ;;
      full_page_urls page_url pages' (page_urls ++ [full_page_url])
  end.

(** The predicate of line 145. *)
Definition is_product_url (x : pystr) : bool :=
  contains (py "/product/") x && negb (contains (py "reviews") x).

(** The text [out.write] appends for one product (lines 151-152). *)
Definition sink_line (product : ProductData) : pystr :=
  dumps (dict_of product) ++ [10%N].

(** Lines 149-152.  [pool.imap] yields the workers' results in the order
    of [page_urls], and re-raises in the parent what a worker raised when
    its turn comes: the writes before it have been made.  What the
    workers print is not collected. *)
Fixpoint write_products (w : World) (crawler : Crawler)
    (page_urls : list pystr) (out : pystr) : pystr * result unit :=
  match page_urls with
  | [] => (out, Return tt)
  | page_url :: page_urls' =>
      match snd (crawl_page w crawler page_url (py "product")) with
      | Raise e => (out, Raise e)
      | Return product =>
          let out :=
            match product with
            | Some product => out ++ sink_line product
            | None => out
            end in
          write_products w crawler page_urls' out
      end
  end.

Definition page_url : pystr := py "https://mamaearth.in/".

(** The URLs handed to the pool. *)
Definition dispatched (pages : list SitemapPage) : result (list pystr) :=
  page_urls <- full_page_urls page_url pages [] ;;
  Return (filter is_product_url page_urls).

Definition download_and_save (w : World) (fs : filesystem)
    (file_name : pystr) (split_lines : bool) : filesystem * result unit :=
  let site_map_url := page_url ++ py "sitemap.xml" in
  let crawler := Crawler_init page_url true split_lines in
  match download_sitemap w crawler (Some site_map_url) with
  | Raise e => (fs, Raise e)
  | Return pages =>
      let sink := os_path_join (DATA_DIR w) file_name in
      match dispatched pages with
      | Raise e => (write_file fs sink [], Raise e)
      | Return page_urls =>
          let (out, r) := write_products w crawler page_urls [] in
          (write_file fs sink out, r)
      end
  end.

(** ** Reading the sink back: a JSON decoder

    The script never reads its output.  To state that a written line
    parses back, the decoder of [json.loads] is written out for the
    values [dumps] produces here: strings, arrays, objects and [null]. *)

Definition unhex (c : N) : option N :=
  if is_digit c then Some (c - 48)%N
  else if ((97 <=? c) && (c <=? 102))%N then Some (c - 87)%N
  else if ((65 <=? c) && (c <=? 70))%N then Some (c - 55)%N
  else None.

Definition decode_uXXXX (a b c d : N) : option N :=
  match unhex a, unhex b, unhex c, unhex d with
  | Some x, Some y, Some z, Some t => Some (4096 * x + 256 * y + 16 * z + t)%N
  | _, _, _, _ => None
  end.

Definition high_surrogate (uni : N) : bool :=
  ((55296 <=? uni) && (uni <=? 56319))%N.

Definition low_surrogate (uni : N) : bool :=
  ((56320 <=? uni) && (uni <=? 57343))%N.

Definition combine_surrogates (uni uni2 : N) : N :=
  (65536 + N.lor (N.shiftl (uni - 55296) 10) (uni2 - 56320))%N.

(** The characters a backslash may precede, [u] apart. *)
Definition backslash (e : N) : option N :=
  if (e =? 34)%N then Some 34%N
  else if (e =? 92)%N then Some 92%N
  else if (e =? 47)%N then Some 47%N
  else if (e =? 98)%N then Some 8%N
  else if (e =? 102)%N then Some 12%N
  else if (e =? 110)%N then Some 10%N
  else if (e =? 114)%N then Some 13%N
  else if (e =? 116)%N then Some 9%N
  else None.

Definition push (c : N) (r : option (pystr * pystr)) : option (pystr * pystr) :=
  match r with
  | Some (decoded, rest) => Some (c :: decoded, rest)
  | None => None
  end.

(** [scanstring], strict, from the character after the opening quote:
    the decoded string and the text after the closing quote. *)
Fixpoint scanstring (s : pystr) : option (pystr * pystr) :=
  match s with
  | [] => None
  | c :: s1 =>
      if (c =? 34)%N then Some ([], s1)
      else if (c =? 92)%N then
        match s1 with
        | [] => None
        | e :: s2 =>
            if (e =? 117)%N then
              match s2 with
              | a :: b :: c' :: d :: s3 =>
                  match decode_uXXXX a b c' d with
                  | None => None
                  | Some uni =>
                      if high_surrogate uni then
                        match s3 with
                        | e1 :: e2 :: a2 :: b2 :: c2 :: d2 :: s4 =>
                            if ((e1 =? 92) && (e2 =? 117))%N then
                              match decode_uXXXX a2 b2 c2 d2 with
                              | None => None
                              | Some uni2 =>
                                  if low_surrogate uni2
                                  then push (combine_surrogates uni uni2)
                                            (scanstring s4)
                                  else push uni (scanstring s3)
                              end
                            else push uni (scanstring s3)
                        | _ => push uni (scanstring s3)
                        end
                      else push uni (scanstring s3)
                  end
              | _ => None
              end
            else
              match backslash e with
              | Some ch => push ch (scanstring s2)
              | None => None
              end
        end
      else if (c <? 32)%N then None
      else push c (scanstring s1)
  end.

Fixpoint skip_whitespace (s : pystr) : pystr :=
  match s with
  | c :: s' => if char_in c [32; 9; 10; 13]%N then skip_whitespace s' else s
  | [] => []
  end.

(** The scanner: a value at the head of [s] and the text after it.  Every
    call spends one unit of [fuel]; the length of the text is enough. *)
Fixpoint scan_once (fuel : nat) (s : pystr) : option (json * pystr) :=
  match fuel with
  | O => None
  | S fuel' =>
      match s with
      | [] => None
      | c :: s' =>
          if (c =? 34)%N then
            match scanstring s' with
            | Some (str, rest) => Some (JString str, rest)
            | None => None
            end
          else if (c =? 91)%N then
            match skip_whitespace s' with
            | d :: rest =>
                if (d =? 93)%N then Some (JArray [], rest)
                else
                  match scan_items fuel' (d :: rest) with
                  | Some (items, rest') => Some (JArray items, rest')
                  | None => None
                  end
            | [] => None
            end
          else if (c =? 123)%N then
            match skip_whitespace s' with
            | d :: rest =>
                if (d =? 125)%N then Some (JObject [], rest)
                else
                  match scan_members fuel' (d :: rest) with
                  | Some (members, rest') => Some (JObject members, rest')
                  | None => None
                  end
            | [] => None
            end
          else if startswith s (py "null") then Some (JNull, skipn 4 s)
          else None
      end
  end

with scan_items (fuel : nat) (s : pystr) : option (list json * pystr) :=
  match fuel with
  | O => None
  | S fuel' =>
      match scan_once fuel' s with
      | None => None
      | Some (v, rest) =>
          match skip_whitespace rest with
          | d :: rest' =>
              if (d =? 93)%N then Some ([v], rest')
              else if (d =? 44)%N then
                match scan_items fuel' (skip_whitespace rest') with
                | Some (items, rest'') => Some (v :: items, rest'')
                | None => None
                end
              else None
          | [] => None
          end
      end
  end

with scan_members (fuel : nat) (s : pystr)
    : option (list (pystr * json) * pystr) :=
  match fuel with
  | O => None
  | S fuel' =>
      match s with
      | q :: s' =>
          if (q =? 34)%N then
            match scanstring s' with
            | None => None
            | Some (key, rest) =>
                match skip_whitespace rest with
                | colon :: rest1 =>
                    if (colon =? 58)%N then
                      match scan_once fuel' (skip_whitespace rest1) with
                      | None => None
                      | Some (v, rest2) =>
                          match skip_whitespace rest2 with
                          | d :: rest3 =>
                              if (d =? 125)%N then Some ([(key, v)], rest3)
                              else if (d =? 44)%N then
                                match scan_members fuel'
                                        (skip_whitespace rest3) with
                                | Some (members, rest4) =>
                                    Some ((key, v) :: members, rest4)
                                | None => None
                                end
                              else None
                          | [] => None
                          end
                      end
                    else None
                | [] => None
                end
            end
          else None
      | [] => None
      end
  end.

(** [json.loads(s)]: one value, with nothing but whitespace around it. *)
Definition loads (s : pystr) : option json :=
  match scan_once (S (List.length s)) (skip_whitespace s) with
  | Some (v, rest) =>
      match skip_whitespace rest with
      | [] => Some v
      | _ :: _ => None
      end
  | None => None
  end.

(** The lines of a file, each without its terminator. *)
Definition readlines (data : pystr) : list pystr :=
  match data with
  | [] => []
  | _ :: _ =>
      let pieces := split 10%N data in
      if truthy (last pieces []) then pieces else removelast pieces
  end.

(** A string of Unicode scalar values: code points that are not
    surrogates. *)
Definition scalar_value (c : N) : bool :=
  ((c <? 55296) || (57344 <=? c) && (c <? 1114112))%N.

Definition well_formed (s : pystr) : bool := forallb scalar_value s.

Definition well_formed_product (product : ProductData) : bool :=
  well_formed (title product) && well_formed (description product)
  && well_formed (subtitle product) && well_formed (product_url product)
  && match sections product with
     | Some l => forallb well_formed l
     | None => true
     end.

(** ** What the decoder gives back

    [scanstring] joins a high and a low surrogate that stand next to
    each other into one character, so the decoded string is the written
    one only up to that; on well-formed strings it is the written one. *)

(** The character decoded from the surrogate pair written for [c]. *)
Definition above_bmp_decoded (c : N) : N :=
  let n := (c - 65536)%N in
  combine_surrogates (N.lor 55296 (N.land (N.shiftr n 10) 1023))
    (N.lor 56320 (N.land n 1023)).

(** What [scanstring] decodes from the escapes of [s]. *)
Fixpoint decoded (s : pystr) : pystr :=
  match s with
  | [] => []
  | c :: s' =>
      if (65536 <=? c)%N then above_bmp_decoded c :: decoded s'
      else if high_surrogate c then
        match s' with
        | d :: s'' =>
            if low_surrogate d then combine_surrogates c d :: decoded s''
            else c :: decoded s'
        | [] => [c]
        end
      else c :: decoded s'
  end.

(** The text [s] does not open with the escape of a low surrogate. *)
Definition no_low_escape (s : pystr) : bool :=
  match s with
  | e1 :: e2 :: a :: b :: c :: d :: _ =>
      if ((e1 =? 92) && (e2 =? 117))%N then
        match decode_uXXXX a b c d with
        | Some uni => negb (low_surrogate uni)
        | None => false
        end
      else true
  | _ => true
  end.

(** The four shapes of an escape. *)
Inductive escape_shape (c : N) : pystr -> Prop :=
  | shape_backslash (e : N) :
      backslash e = Some c -> (e =? 117)%N = false -> (c <= 126)%N ->
      escape_shape c [92%N; e]
  | shape_plain :
      (c =? 34)%N = false -> (c =? 92)%N = false -> (32 <= c <= 126)%N ->
      escape_shape c [c]
  | shape_u :
      (c < 65536)%N -> escape_shape c (u_escape c)
  | shape_pair :
      (65536 <= c)%N ->
      escape_shape c
        (u_escape (N.lor 55296 (N.land (N.shiftr (c - 65536) 10) 1023))
         ++ u_escape (N.lor 56320 (N.land (c - 65536) 1023))).

(** Printable ASCII, which is all [dumps] writes. *)
Definition printable (s : pystr) : Prop :=
  Forall (fun ch => (32 <= ch <= 126)%N) s.

(** A text the scanner reads as the value [v], whatever follows it, and
    in front of which it skips no white space. *)
Definition scans (fuel : nat) (txt : pystr) (v : json) : Prop :=
  forall rest,
    scan_once fuel (txt ++ rest) = Some (v, rest)
    /\ skip_whitespace (txt ++ rest) = txt ++ rest.

(** The text of one member of an object, as [dumps] writes it. *)
Definition member_text (key txt : pystr) : pystr :=
  encode_basestring_ascii key ++ py ": " ++ txt.

(** A product with every string decoded. *)
Definition decoded_product (product : ProductData) : ProductData :=
  {| title := decoded (title product);
     description := decoded (description product);
     subtitle := decoded (subtitle product);
     product_url := decoded (product_url product);
     sections := option_map (map decoded) (sections product) |}.

(** The [sections] member of [dict_of]. *)
Definition sections_json (product : ProductData) : json :=
  match sections product with
  | Some l => JArray (map JString l)
  | None => JNull
  end.

(** The number of sections of a product. *)
Definition sections_count (product : ProductData) : nat :=
  match sections product with
  | Some l => List.length l
  | None => 0
  end.


(** ** Example worlds

    A small shop, given by tables: what each URL answers, what document
    each content parses to, and what the sitemap lists. *)

Fixpoint lookup {A : Type} (key : pystr) (table : list (pystr * A))
    : option A :=
  match table with
  | [] => None
  | (k, a) :: table' => if str_eqb key k then Some a else lookup key table'
  end.

Definition document (contents : list PageElement) : PageElement :=
  Tag (py "[document]") [] contents.

Definition table_world (responses : list (pystr * result Response))
    (documents : list (pystr * PageElement))
    (sitemap : result AbstractSitemap) : World :=
  {| requests_get := fun url =>
       match lookup url responses with
       | Some r => r
       | None => Raise (RequestException (py "Name or service not known"))
       end;
     BeautifulSoup := fun content =>
       match lookup content documents with
       | Some d => Return d
       | None => Return (document [])
       end;
     SitemapFetcher_sitemap := fun _ => sitemap;
     sitemap_tree_for_homepage := fun _ => sitemap;
     DATA_DIR := py "data" |}.

(** A product page as the selectors expect it. *)
Definition onion_oil_page : PageElement :=
  document
    [Tag (py "html") []
       [Tag (py "body") []
          [Tag (py "h1") [py "product-name"] [NavigableString (py "Onion Oil")];
           Tag (py "div") [py "product-subtitle"; py "muted"]
             [NavigableString (py "150 ml")];
           Tag (py "div") [py "details"]
             [Tag (py "h2") [py "product-description-header"]
                [NavigableString (py "Description")];
              Tag (py "p") []
                [NavigableString (py "For hair fall control")]]]]].

(** Every selector matches, and no element has any text. *)
Definition blank_page : PageElement :=
  document
    [Tag (py "h1") [py "product-name"] [];
     Tag (py "div") [py "product-subtitle"] [];
     Tag (py "div") []
       [Tag (py "h2") [py "product-description-header"] [];
        Tag (py "p") [] [Comment (py "to be written")]]].

(** No [h1] of class [product-name]. *)
Definition untitled_page : PageElement :=
  document
    [Tag (py "h1") [py "page-title"] [NavigableString (py "Onion Oil")];
     Tag (py "div") [py "product-subtitle"] [NavigableString (py "150 ml")];
     Tag (py "div") []
       [Tag (py "h2") [py "product-description-header"] [];
        Tag (py "p") [] [NavigableString (py "For hair fall control")]]].

Definition shop_documents : list (pystr * PageElement) :=
  [(py "onion oil", onion_oil_page);
   (py "blank", blank_page);
   (py "untitled", untitled_page)].

Definition shop_responses : list (pystr * result Response) :=
  [(py "https://mamaearth.in/product/onion-oil",
    Return {| status_code := 200; content := py "onion oil" |});
   (py "https://mamaearth.in/product/blank",
    Return {| status_code := 200; content := py "blank" |});
   (py "https://mamaearth.in/product/untitled",
    Return {| status_code := 200; content := py "untitled" |});
   (py "https://mamaearth.in/product/gone",
    Return {| status_code := 404; content := py "not found" |});
   (py "https://mamaearth.in/product/choices",
    Return {| status_code := 300; content := py "onion oil" |});
   (py "https://mamaearth.in/product/down",
    Raise (RequestException (py "Connection refused")))].

(** The shop whose sitemap lists [urls]. *)
Definition shop (urls : list string) : World :=
  table_world shop_responses shop_documents
    (Return (PagesSitemap (py "https://mamaearth.in/sitemap.xml")
               (map (fun u => {| url := py u |}) urls))).

(** The shop whose sitemap cannot be read. *)
Definition shop_without_sitemap : World :=
  table_world shop_responses shop_documents
    (Return (InvalidSitemap (py "https://mamaearth.in/sitemap.xml")
               (py "Unable to fetch sitemap: 404 Not Found"))).

Definition the_crawler : Crawler := Crawler_init page_url true true.

Definition onion_oil : ProductData :=
  {| title := py "Onion Oil";
     description := py "For hair fall control";
     subtitle := py "150 ml";
     product_url := py "https://mamaearth.in/product/onion-oil";
     sections := Some [py "product"; py "product/onion-oil"] |}.

Definition abstracts : pystr := py "abstracts.jsonl".

Definition sink_path : pystr := py "data/abstracts.jsonl".

(** The pages of the scenario of the specification. *)
Definition x_pages : list SitemapPage :=
  [{| url := py "https://x/product/a" |};
   {| url := py "https://x/other" |};
   {| url := py "https://x/product/b/reviews" |}].

Definition x_world : World :=
  table_world
    [(py "https://x/product/a",
      Return {| status_code := 200; content := py "onion oil" |})]
    shop_documents
    (Return (PagesSitemap (py "https://mamaearth.in/sitemap.xml") x_pages)).

(** ** The selector of an element (lines 60-72)

    [selector_soup] walks from an element up to the document.  An element
    is given here with what [bs4] keeps in its parent pointers: the list
    of its [.parents], nearest first. *)

(** [element.name]: the name of a tag, [None] for a string or a comment. *)
Definition name (e : PageElement) : option pystr :=
  match e with
  | Tag n _ _ => Some n
  | _ => None
  end.

(** The name as [%s] prints it. *)
Definition name_str (e : PageElement) : pystr :=
  match name e with
  | Some n => n
  | None => py "None"
  end.

Fixpoint list_eqb {A : Type} (eqb : A -> A -> bool) (l m : list A) : bool :=
  match l, m with
  | [], [] => true
  | a :: l', b :: m' => eqb a b && list_eqb eqb l' m'
  | _, _ => false
  end.

(** [a == b] on page elements.  Two tags are equal when their names,
    attributes and contents are; strings and comments are [str] values
    and compare by their text; a tag never equals a string. *)
Fixpoint PageElement_eqb (a b : PageElement) : bool :=
  match a, b with
  | Tag n c contents, Tag n' c' contents' =>
      str_eqb n n' && list_eqb str_eqb c c'
      && (fix all2 (l m : list PageElement) : bool :=
            match l, m with
            | [], [] => true
            | x :: l', y :: m' => PageElement_eqb x y && all2 l' m'
            | _, _ => false
            end) contents contents'
  | NavigableString s, NavigableString s'
  | NavigableString s, Comment s'
  | Comment s, NavigableString s'
  | Comment s, Comment s' => str_eqb s s'
  | _, _ => false
  end.

(** [parent.find_all(name, recursive=False)]: the children of [parent]
    that are tags of that name; every child tag when the name is [None]. *)
Definition find_all_children (parent : PageElement) (n : option pystr)
    : list PageElement :=
  match parent with
  | Tag _ _ contents =>
      filter (fun e => match name e, n with
                       | Some m, Some n => str_eqb m n
                       | Some _, None => true
                       | None, _ => false
                       end) contents
  | _ => []
  end.

(** [siblings.index(child)]: the position of the first sibling equal to
    [child]; [ValueError] when there is none. *)
Fixpoint index (child : PageElement) (siblings : list PageElement)
    : result nat :=
  match siblings with
  | [] => Raise (ValueError (py "x is not in list"))
  | sibling :: siblings' =>
      if PageElement_eqb sibling child then Return O
      else i <- index child siblings' ;; Return (S i)
  end.

(** ['%d' % n]. *)
Fixpoint decimal (fuel n : nat) (digits : pystr) : pystr :=
  match fuel with
  | O => digits
  | S fuel' =>
      let digits := (48 + N.of_nat (Nat.modulo n 10))%N :: digits in
      if Nat.eqb (Nat.div n 10) 0 then digits
      else decimal fuel' (Nat.div n 10) digits
  end.

Definition format_d (n : nat) : pystr := decimal (S n) n [].

(** The expression appended to [components] in the loop (lines 66-68). *)
Definition component (child parent : PageElement) : result pystr :=
  let siblings := find_all_children parent (name child) in
  if list_eqb PageElement_eqb siblings [child] then Return (name_str child)
  else
    i <- index child siblings ;;
    Return (name_str child ++ py ":nth-of-type(" ++ format_d (1 + i)
            ++ py ")").

(** The loop of lines 63-70 over [child.parents]. *)
Fixpoint selector_loop (child : PageElement) (parents : list PageElement)
    (components : list pystr) : result (list pystr) :=
  match parents with
  | [] => Return components
  | parent :: parents' =>
      c <- component child parent ;;
      selector_loop parent parents' (components ++ [c])
  end.

Definition selector_soup (element : PageElement)
    (parents : list PageElement) : result pystr :=
  child_parents <-
    (if match name element with
        | Some n => truthy n
        | None => false
        end
     then Return (element, parents)
     else
       match parents with
       | parent :: parents' => Return (parent, parents')
       | [] =>
           Raise (AttributeError
                    (py "'NoneType' object has no attribute 'parents'"))
       end) ;;
  components <- selector_loop (fst child_parents) (snd child_parents) [] ;;
  Return (join (py " > ") (rev components)).

(** [parents] is the chain of parents of [child] in some document: each
    element is one of the contents of the next. *)
Fixpoint chain (child : PageElement) (parents : list PageElement) : Prop :=
  match parents with
  | [] => True
  | parent :: parents' =>
      match parent with
      | Tag _ _ contents => In child contents
      | _ => False
      end
      /\ chain parent parents'
  end.

(** ** What a run writes for one URL *)

(** The text the loop of lines 149-152 appends for a URL. *)
Definition written_for (w : World) (crawler : Crawler) (page_url : pystr)
    : pystr :=
  match snd (crawl_page w crawler page_url (py "product")) with
  | Return (Some product) => sink_line product
  | _ => []
  end.



(** The products among what the workers gave for a list of URLs. *)
Definition products_of (w : World) (crawler : Crawler) (page_urls : list pystr)
    : list ProductData :=
  flat_map (fun url =>
              match snd (crawl_page w crawler url (py "product")) with
              | Return (Some product) => [product]
              | _ => []
              end) page_urls.

(** Every element of the chain is the only child of its name. *)
Fixpoint only_children (child : PageElement) (parents : list PageElement)
    : Prop :=
  match parents with
  | [] => True
  | parent :: parents' =>
      find_all_children parent (name child) = [child]
      /\ only_children parent parents'
  end.

(** * Properties *)

Arguments py : simpl never.
Arguments decode_uXXXX : simpl never.
Arguments high_surrogate : simpl never.
Arguments low_surrogate : simpl never.
Arguments combine_surrogates : simpl never.
Arguments backslash : simpl never.
Arguments hexdigit : simpl never.

(** ** Strings *)

Lemma str_eqb_eq (s t : pystr) : str_eqb s t = true <-> s = t.
Proof.
  revert t; induction s as [|c s IH]; intros [|d t]; simpl;
    try (split; [discriminate | congruence]); try tauto.
  rewrite andb_true_iff, N.eqb_eq, IH. split.
  - intros [-> ->]; reflexivity.
  - intros [= -> ->]; auto.
Qed.

Lemma str_eqb_refl (s : pystr) : str_eqb s s = true.
Proof. apply str_eqb_eq; reflexivity. Qed.

(** ** The URL path hierarchy *)

(** The doctests of [get_path_hierarchy], and the empty path. *)
Lemma get_path_hierarchy_doctests :
  get_path_hierarchy (py "/foo/bar") = Return [py "foo"; py "foo/bar"]
  /\ get_path_hierarchy (py "foo") = Return [py "foo"]
  /\ get_path_hierarchy (py "/foo/") = Return [py "foo"]
  /\ get_path_hierarchy (py "foo/bar/") = Return [py "foo"; py "foo/bar"]
  /\ get_path_hierarchy (py "") = Return [].
Proof. repeat split; vm_compute; reflexivity. Qed.

(** C4, at the path ["/"]: the guard [if not path] sees a non-empty
    path, the strip leaves the empty string, its split is one empty
    directory, and the result is the one-element list [['']] where the
    specification expects the empty list. *)
Theorem get_path_hierarchy_root :
  get_path_hierarchy (py "/") = Return [ [] ]
  /\ get_path_hierarchy (py "/") <> Return []
  /\ get_path_hierarchy (py "https://mamaearth.in/") = Return [ [] ].
Proof.
  repeat split; try (vm_compute; reflexivity).
  vm_compute. discriminate.
Qed.

(** ** The extraction worker *)

Section ExtractionWorker.

Variable w : World.
Variable self : Crawler.

(** What the [try] block needs to succeed: the four [find]s. *)
Lemma extract_Return (soup : PageElement) (url : pystr)
    (secs : list pystr) (product : ProductData) :
  extract soup url secs = Return product <->
  exists name header paragraph sub,
    find soup (py "h1") (Some (py "product-name")) = Some name
    /\ find soup (py "h2") (Some (py "product-description-header"))
       = Some header
    /\ find (parent header) (py "p") None = Some paragraph
    /\ find soup (py "div") (Some (py "product-subtitle")) = Some sub
    /\ product = {| title := text (element name);
                    description := text (element paragraph);
                    subtitle := text (element sub);
                    product_url := url;
                    sections := Some secs |}.
Proof.
  unfold extract. split.
  - destruct (find soup (py "h2") (Some (py "product-description-header")))
      as [header|]; simpl; [|discriminate].
    destruct (find soup (py "h1") (Some (py "product-name"))) as [name|];
      simpl; [|discriminate].
    destruct (find (parent header) (py "p") None) as [paragraph|] eqn:Hp;
      simpl; [|discriminate].
    destruct (find soup (py "div") (Some (py "product-subtitle")))
      as [sub|]; simpl; [|discriminate].
    intros [= <-]. exists name, header, paragraph, sub.
    repeat split; assumption.
  - intros (name & header & paragraph & sub & -> & -> & H & -> & ->).
    simpl. rewrite H. reflexivity.
Qed.

(** A [find] that comes back empty makes the [try] block raise. *)
Lemma extract_Raise (soup : PageElement) (url : pystr) (secs : list pystr) :
  find soup (py "h1") (Some (py "product-name")) = None
  \/ find soup (py "h2") (Some (py "product-description-header")) = None
  \/ (exists header,
        find soup (py "h2") (Some (py "product-description-header"))
        = Some header
        /\ find (parent header) (py "p") None = None)
  \/ find soup (py "div") (Some (py "product-subtitle")) = None ->
  exists e, extract soup url secs = Raise e.
Proof.
  intros H. destruct (extract soup url secs) as [product|e] eqn:E;
    [|eauto].
  apply extract_Return in E.
  destruct E as (name & header & paragraph & sub & H1 & H2 & H3 & H4 & _).
  destruct H as [H | [H | [(header' & H & H') | H]]]; congruence.
Qed.

(** A product comes out of [crawl_page] through one path only. *)
Lemma crawl_page_Some (url content_selector : pystr)
    (product : ProductData) :
  snd (crawl_page w self url content_selector) = Return (Some product) ->
  exists secs resp soup,
    get_path_hierarchy url = Return secs
    /\ requests_get w url = Return resp
    /\ ok resp = true
    /\ BeautifulSoup w (content resp) = Return soup
    /\ extract soup url secs = Return product.
Proof.
  unfold crawl_page.
  destruct (get_path_hierarchy url) as [secs|] eqn:Hsecs; [|discriminate].
  destruct (requests_get w url) as [resp|] eqn:Hget; [|discriminate].
  destruct (ok resp) eqn:Hok; simpl; [|discriminate].
  destruct (BeautifulSoup w (content resp)) as [soup|] eqn:Hsoup;
    [|discriminate].
  destruct (extract soup url secs) as [p|] eqn:E; simpl; [|discriminate].
  intros [= ->]. exists secs, resp, soup. repeat split; auto.
Qed.

(** Past the fetch and the parser, [crawl_page] returns: the product of
    the [try] block, or [None] with a message printed. *)
Lemma crawl_page_parsed (url content_selector : pystr) (secs : list pystr)
    (resp : Response) (soup : PageElement) :
  get_path_hierarchy url = Return secs ->
  requests_get w url = Return resp ->
  ok resp = true ->
  BeautifulSoup w (content resp) = Return soup ->
  crawl_page w self url content_selector =
  match extract soup url secs with
  | Return product => ([], Return (Some product))
  | Raise _ => ([py "Error Occured in parsing data on " ++ url], Return None)
  end.
Proof.
  intros H1 H2 H3 H4. unfold crawl_page. rewrite H1, H2, H3, H4. reflexivity.
Qed.

(** A response that is not [ok] ends the call at line 108. *)
Lemma crawl_page_not_ok (url content_selector : pystr) (secs : list pystr)
    (resp : Response) :
  get_path_hierarchy url = Return secs ->
  requests_get w url = Return resp ->
  ok resp = false ->
  crawl_page w self url content_selector = ([], Return None).
Proof.
  intros H1 H2 H3. unfold crawl_page. rewrite H1, H2, H3. reflexivity.
Qed.

(** C1, as the code has it: a product is returned only when each of the
    three fields found its element (the [h1] of class [product-name], a
    [p] under the parent of the [h2] of class
    [product-description-header], the [div] of class [product-subtitle]),
    and its fields are the texts of these elements, empty or not; when a
    selector finds nothing on a fetched and parsed page the call returns
    [None], no partial product. *)
Theorem product_requires_every_selector (url content_selector : pystr) :
  (forall product,
     snd (crawl_page w self url content_selector) = Return (Some product) ->
     exists resp soup name header paragraph sub,
       requests_get w url = Return resp
       /\ ok resp = true
       /\ BeautifulSoup w (content resp) = Return soup
       /\ find soup (py "h1") (Some (py "product-name")) = Some name
       /\ find soup (py "h2") (Some (py "product-description-header"))
          = Some header
       /\ find (parent header) (py "p") None = Some paragraph
       /\ find soup (py "div") (Some (py "product-subtitle")) = Some sub
       /\ title product = text (element name)
       /\ description product = text (element paragraph)
       /\ subtitle product = text (element sub))
  /\
  (forall secs resp soup,
     get_path_hierarchy url = Return secs ->
     requests_get w url = Return resp ->
     ok resp = true ->
     BeautifulSoup w (content resp) = Return soup ->
     find soup (py "h1") (Some (py "product-name")) = None
     \/ find soup (py "h2") (Some (py "product-description-header")) = None
     \/ (exists header,
           find soup (py "h2") (Some (py "product-description-header"))
           = Some header
           /\ find (parent header) (py "p") None = None)
     \/ find soup (py "div") (Some (py "product-subtitle")) = None ->
     snd (crawl_page w self url content_selector) = Return None).
Proof.
  split.
  - intros product H.
    apply crawl_page_Some in H.
    destruct H as (secs & resp & soup & _ & Hget & Hok & Hsoup & E).
    apply extract_Return in E.
    destruct E as (name & header & paragraph & sub & H1 & H2 & H3 & H4 & ->).
    exists resp, soup, name, header, paragraph, sub.
    repeat split; assumption.
  - intros secs resp soup Hsecs Hget Hok Hsoup Hnone.
    rewrite (crawl_page_parsed url content_selector secs resp soup
               Hsecs Hget Hok Hsoup).
    destruct (extract_Raise soup url secs Hnone) as [e ->]. reflexivity.
Qed.

(** C10: [content_selector] is never read.  Two calls that differ in it
    print and return the same, and the fields of a product come from the
    three fixed selectors whatever it is. *)
Theorem content_selector_is_ignored (url selector1 selector2 : pystr) :
  crawl_page w self url selector1 = crawl_page w self url selector2
  /\ (forall product,
        snd (crawl_page w self url selector1) = Return (Some product) <->
        exists secs resp soup name header paragraph sub,
          get_path_hierarchy url = Return secs
          /\ requests_get w url = Return resp
          /\ ok resp = true
          /\ BeautifulSoup w (content resp) = Return soup
          /\ find soup (py "h1") (Some (py "product-name")) = Some name
          /\ find soup (py "h2") (Some (py "product-description-header"))
             = Some header
          /\ find (parent header) (py "p") None = Some paragraph
          /\ find soup (py "div") (Some (py "product-subtitle")) = Some sub
          /\ product = {| title := text (element name);
                          description := text (element paragraph);
                          subtitle := text (element sub);
                          product_url := url;
                          sections := Some secs |}).
Proof.
  split; [reflexivity|].
  intros product. split.
  - intros H. apply crawl_page_Some in H.
    destruct H as (secs & resp & soup & Hsecs & Hget & Hok & Hsoup & E).
    apply extract_Return in E.
    destruct E as (name & header & paragraph & sub & H1 & H2 & H3 & H4 & ->).
    exists secs, resp, soup, name, header, paragraph, sub.
    repeat split; assumption.
  - intros (secs & resp & soup & name & header & paragraph & sub
            & Hsecs & Hget & Hok & Hsoup & H1 & H2 & H3 & H4 & ->).
    rewrite (crawl_page_parsed url selector1 secs resp soup
               Hsecs Hget Hok Hsoup).
    assert (E : extract soup url secs =
                Return {| title := text (element name);
                          description := text (element paragraph);
                          subtitle := text (element sub);
                          product_url := url;
                          sections := Some secs |}).
    { apply extract_Return. exists name, header, paragraph, sub.
      repeat split; assumption. }
    rewrite E. reflexivity.
Qed.

End ExtractionWorker.

(** ** The run *)

Section Run.

Variable w : World.

(** One turn of the loop of lines 149-152, by what the worker gave. *)
Lemma write_products_None (crawler : Crawler) (url : pystr)
    (rest : list pystr) (out : pystr) :
  snd (crawl_page w crawler url (py "product")) = Return None ->
  write_products w crawler (url :: rest) out
  = write_products w crawler rest out.
Proof. intros H. simpl. rewrite H. reflexivity. Qed.

Lemma write_products_Some (crawler : Crawler) (url : pystr)
    (rest : list pystr) (out : pystr) (product : ProductData) :
  snd (crawl_page w crawler url (py "product")) = Return (Some product) ->
  write_products w crawler (url :: rest) out
  = write_products w crawler rest (out ++ sink_line product).
Proof. intros H. simpl. rewrite H. reflexivity. Qed.

Lemma write_products_Raise (crawler : Crawler) (url : pystr)
    (rest : list pystr) (out : pystr) (e : exception) :
  snd (crawl_page w crawler url (py "product")) = Raise e ->
  write_products w crawler (url :: rest) out = (out, Raise e).
Proof. intros H. simpl. rewrite H. reflexivity. Qed.

(** What the loop has written, whether it ended or was cut short: the
    lines of products that workers returned for URLs of the list. *)
Lemma write_products_written (crawler : Crawler) (page_urls : list pystr) :
  forall out,
  exists products,
    fst (write_products w crawler page_urls out)
    = out ++ flat_map sink_line products
    /\ Forall
         (fun product =>
            exists url,
              In url page_urls
              /\ snd (crawl_page w crawler url (py "product"))
                 = Return (Some product))
         products.
Proof.
  induction page_urls as [|url rest IH]; intros out.
  - exists []. simpl. rewrite app_nil_r. auto.
  - destruct (snd (crawl_page w crawler url (py "product")))
      as [[product|]|e] eqn:E.
    + rewrite (write_products_Some crawler url rest out product E).
      destruct (IH (out ++ sink_line product)) as (products & Hout & Hall).
      exists (product :: products). split.
      * rewrite Hout. simpl. rewrite <- app_assoc. reflexivity.
      * constructor.
        -- exists url. split; [left; reflexivity | exact E].
        -- eapply Forall_impl; [|exact Hall].
           intros p (u & Hin & Hp). exists u. split; [right|]; assumption.
    + rewrite (write_products_None crawler url rest out E).
      destruct (IH out) as (products & Hout & Hall).
      exists products. split; [exact Hout|].
      eapply Forall_impl; [|exact Hall].
      intros p (u & Hin & Hp). exists u. split; [right|]; assumption.
    + rewrite (write_products_Raise crawler url rest out e E).
      exists []. simpl. rewrite app_nil_r. auto.
Qed.

(** C2, as the code has it: a response that is not [ok] and a failure
    of the selectors never leave [crawl_page] as an exception; the
    result is [None], nothing is written for the URL, and the loop goes
    on with the URLs that remain.  (What [requests.get] or the parser
    raise is not caught.) *)
Theorem status_and_selector_errors_are_captured (crawler : Crawler)
    (url : pystr) (rest : list pystr) (out : pystr) (secs : list pystr)
    (resp : Response) :
  get_path_hierarchy url = Return secs ->
  requests_get w url = Return resp ->
  ok resp = false
  \/ (exists soup e,
        ok resp = true
        /\ BeautifulSoup w (content resp) = Return soup
        /\ extract soup url secs = Raise e) ->
  snd (crawl_page w crawler url (py "product")) = Return None
  /\ write_products w crawler (url :: rest) out
     = write_products w crawler rest out.
Proof.
  intros Hsecs Hget Hfail.
  assert (H : snd (crawl_page w crawler url (py "product")) = Return None).
  { destruct Hfail as [Hok | (soup & e & Hok & Hsoup & E)].
    - rewrite (crawl_page_not_ok w crawler url _ secs resp Hsecs Hget Hok).
      reflexivity.
    - rewrite (crawl_page_parsed w crawler url _ secs resp soup
                 Hsecs Hget Hok Hsoup), E.
      reflexivity. }
  split; [exact H | apply write_products_None; exact H].
Qed.

(** C5, as the code has it: when the fetch answers with a status from
    400 to 599, [crawl_page] returns [None] without printing, and the
    loop writes nothing for the URL.  (There is no count of skipped
    URLs: the run returns nothing.) *)
Theorem error_status_writes_nothing (crawler : Crawler) (url : pystr)
    (rest : list pystr) (out : pystr) (secs : list pystr)
    (resp : Response) :
  get_path_hierarchy url = Return secs ->
  requests_get w url = Return resp ->
  (400 <= status_code resp < 600)%N ->
  crawl_page w crawler url (py "product") = ([], Return None)
  /\ write_products w crawler (url :: rest) out
     = write_products w crawler rest out.
Proof.
  intros Hsecs Hget [Hlo Hhi].
  assert (Hok : ok resp = false).
  { unfold ok. apply N.leb_le in Hlo. apply N.ltb_lt in Hhi.
    rewrite Hlo, Hhi. reflexivity. }
  pose proof (crawl_page_not_ok w crawler url (py "product") secs resp
                Hsecs Hget Hok) as H.
  split; [exact H|]. apply write_products_None. rewrite H. reflexivity.
Qed.

(** The URLs that pass the filter of line 145 satisfy its predicate. *)
Lemma dispatched_is_product_url (pages : list SitemapPage)
    (page_urls : list pystr) (url : pystr) :
  dispatched pages = Return page_urls ->
  In url page_urls ->
  is_product_url url = true.
Proof.
  unfold dispatched.
  destruct (full_page_urls page_url pages []) as [all|]; simpl;
    [|discriminate].
  intros [= <-] Hin. apply filter_In in Hin. tauto.
Qed.

(** C7: once the sitemap is resolved and the page URLs are joined, what
    the run leaves in the sink is the lines of products, each with a
    [url] that is one of the dispatched URLs, so one that passed the
    filter, and with the path hierarchy of that [url] as [sections]. *)
Theorem written_products_are_dispatched_urls (fs : filesystem)
    (file_name : pystr) (split_lines : bool) (pages : list SitemapPage)
    (page_urls : list pystr) :
  download_sitemap w (Crawler_init page_url true split_lines)
    (Some (page_url ++ py "sitemap.xml")) = Return pages ->
  dispatched pages = Return page_urls ->
  exists products,
    fst (download_and_save w fs file_name split_lines)
      (os_path_join (DATA_DIR w) file_name)
    = Some (flat_map sink_line products)
    /\ Forall
         (fun product =>
            In (product_url product) page_urls
            /\ is_product_url (product_url product) = true
            /\ exists secs,
                 get_path_hierarchy (product_url product) = Return secs
                 /\ sections product = Some secs)
         products.
Proof.
  intros Hpages Hurls.
  destruct (write_products_written (Crawler_init page_url true split_lines)
              page_urls []) as (products & Hout & Hall).
  exists products. split.
  - unfold download_and_save. rewrite Hpages, Hurls.
    destruct (write_products w _ page_urls []) as [out r]. simpl in *.
    unfold write_file. rewrite str_eqb_refl, Hout. reflexivity.
  - eapply Forall_impl; [|exact Hall].
    intros product (url & Hin & Hp).
    apply crawl_page_Some in Hp.
    destruct Hp as (secs & resp & soup & Hsecs & _ & _ & _ & E).
    apply extract_Return in E.
    destruct E as (name & header & paragraph & sub & _ & _ & _ & _ & ->).
    simpl. repeat split.
    + exact Hin.
    + exact (dispatched_is_product_url pages page_urls url Hurls Hin).
    + exists secs. split; [exact Hsecs | reflexivity].
Qed.

(** C6: with a sitemap resolver that returns the three pages of the
    scenario, only [https://x/product/a] passes the filter, and it is
    the one URL a worker is given: what the run leaves in the sink and
    how it ends are what [crawl_page] gives for that URL.  Its product
    is the one line of the sink; without a product the sink is empty;
    what it raises ends the run. *)
Theorem only_the_product_page_is_dispatched (fs : filesystem)
    (file_name : pystr) (split_lines : bool) :
  download_sitemap w (Crawler_init page_url true split_lines)
    (Some (page_url ++ py "sitemap.xml")) = Return x_pages ->
  dispatched x_pages = Return [py "https://x/product/a"]
  /\ download_and_save w fs file_name split_lines
     = match snd (crawl_page w (Crawler_init page_url true split_lines)
                    (py "https://x/product/a") (py "product")) with
       | Return (Some product) =>
           (write_file fs (os_path_join (DATA_DIR w) file_name)
              (sink_line product), Return tt)
       | Return None =>
           (write_file fs (os_path_join (DATA_DIR w) file_name) [],
            Return tt)
       | Raise e =>
           (write_file fs (os_path_join (DATA_DIR w) file_name) [], Raise e)
       end.
Proof.
  intros Hpages.
  assert (D : dispatched x_pages = Return [py "https://x/product/a"])
    by (vm_compute; reflexivity).
  split; [exact D|].
  unfold download_and_save. rewrite Hpages, D. cbn [write_products].
  destruct (snd (crawl_page w _ (py "https://x/product/a") (py "product")))
    as [[product|]|e]; reflexivity.
Qed.

(** An invalid explicit sitemap is not appended to [sitemaps]. *)
Lemma download_sitemap_invalid (self : Crawler)
    (sitemap_url invalid_url reason : pystr) :
  truthy sitemap_url = true ->
  SitemapFetcher_sitemap w sitemap_url
  = Return (InvalidSitemap invalid_url reason) ->
  download_sitemap w self (Some sitemap_url)
  = Return (all_pages (IndexWebsiteSitemap (site self) [])).
Proof.
  intros Hurl Hfetch. unfold download_sitemap.
  destruct sitemap_url as [|c sitemap_url]; [discriminate|].
  rewrite Hfetch. reflexivity.
Qed.

(** C9: an explicit sitemap that [usp] reports as invalid is left out,
    and the pages are those of an index with no sub-sitemap: none.  The
    call returns; it does not raise. *)
Theorem invalid_explicit_sitemap_degrades (self : Crawler)
    (sitemap_url invalid_url reason : pystr) :
  truthy sitemap_url = true ->
  SitemapFetcher_sitemap w sitemap_url
  = Return (InvalidSitemap invalid_url reason) ->
  download_sitemap w self (Some sitemap_url)
  = Return (all_pages (IndexWebsiteSitemap (site self) []))
  /\ download_sitemap w self (Some sitemap_url) = Return [].
Proof.
  intros Hurl Hfetch.
  rewrite (download_sitemap_invalid self sitemap_url invalid_url reason
             Hurl Hfetch).
  split; reflexivity.
Qed.

(** With an invalid sitemap the run is not aborted: it ends normally
    and leaves an empty sink. *)
Lemma invalid_sitemap_run_completes (fs : filesystem) (file_name : pystr)
    (split_lines : bool) (invalid_url reason : pystr) :
  SitemapFetcher_sitemap w (page_url ++ py "sitemap.xml")
  = Return (InvalidSitemap invalid_url reason) ->
  download_and_save w fs file_name split_lines
  = (write_file fs (os_path_join (DATA_DIR w) file_name) [], Return tt).
Proof.
  intros Hfetch.
  pose proof (download_sitemap_invalid
                (Crawler_init page_url true split_lines)
                (page_url ++ py "sitemap.xml") invalid_url reason
                eq_refl Hfetch) as Hpages.
  unfold download_and_save. rewrite Hpages. reflexivity.
Qed.

End Run.

(** ** The sink format *)

(** A property checked on every number below a bound holds below it. *)
Lemma forallb_below (P : N -> bool) (n : nat) :
  forallb P (map N.of_nat (seq 0 n)) = true ->
  forall d, (d < N.of_nat n)%N -> P d = true.
Proof.
  intros H d Hd. rewrite forallb_forall in H. apply H.
  apply in_map_iff. exists (N.to_nat d). split.
  - apply N2Nat.id.
  - apply in_seq. lia.
Qed.

Lemma unhex_hexdigit (d : N) : (d < 16)%N -> unhex (hexdigit d) = Some d.
Proof.
  intros Hd.
  pose proof (forallb_below
    (fun d => match unhex (hexdigit d) with
              | Some x => N.eqb x d
              | None => false
              end) 16 eq_refl d Hd) as H.
  simpl in H. destruct (unhex (hexdigit d)); [|discriminate].
  apply N.eqb_eq in H. congruence.
Qed.

Lemma hexdigit_printable (d : N) :
  (d < 16)%N -> (32 <= hexdigit d <= 126)%N.
Proof.
  intros Hd. unfold hexdigit. destruct (d <? 10)%N; lia.
Qed.

Lemma sixteen_digits (n : N) :
  (n < 65536)%N ->
  (4096 * (n / 4096 mod 16) + 256 * (n / 256 mod 16) + 16 * (n / 16 mod 16)
   + n mod 16 = n)%N.
Proof.
  intros Hn.
  pose proof (N.div_mod n 16 ltac:(lia)).
  pose proof (N.div_mod (n / 16) 16 ltac:(lia)).
  pose proof (N.div_mod (n / 16 / 16) 16 ltac:(lia)).
  pose proof (N.mod_lt n 16 ltac:(lia)).
  pose proof (N.mod_lt (n / 16) 16 ltac:(lia)).
  pose proof (N.mod_lt (n / 16 / 16) 16 ltac:(lia)).
  replace (n / 256)%N with (n / 16 / 16)%N
    by (rewrite N.Div0.div_div; reflexivity).
  replace (n / 4096)%N with (n / 16 / 16 / 16)%N
    by (rewrite !N.Div0.div_div; reflexivity).
  assert ((n / 16 / 16 / 16) < 16)%N.
  { rewrite !N.Div0.div_div. apply N.Div0.div_lt_upper_bound; lia. }
  rewrite (N.mod_small (n / 16 / 16 / 16) 16) by assumption.
  lia.
Qed.

Lemma decode_format_04x (n : N) :
  (n < 65536)%N ->
  decode_uXXXX (hexdigit (n / 4096 mod 16)) (hexdigit (n / 256 mod 16))
    (hexdigit (n / 16 mod 16)) (hexdigit (n mod 16)) = Some n.
Proof.
  intros Hn. unfold decode_uXXXX.
  rewrite !unhex_hexdigit by (apply N.mod_lt; lia).
  rewrite sixteen_digits by assumption. reflexivity.
Qed.

(** [x << 10 | y] adds up when [y] has ten bits. *)
Lemma lor_shiftl_10 (a b : N) :
  (b < 1024)%N -> N.lor (N.shiftl a 10) b = (a * 1024 + b)%N.
Proof.
  intros Hb.
  assert (Hland : N.land (N.shiftl a 10) b = 0%N).
  { apply N.bits_inj. intros i. rewrite N.land_spec, N.bits_0.
    destruct (N.lt_ge_cases i 10) as [Hi|Hi].
    - rewrite N.shiftl_spec_low by assumption. reflexivity.
    - rewrite <- (N.mod_small b (2 ^ 10)) by (simpl; lia).
      rewrite N.mod_pow2_bits_high by assumption. apply andb_false_r. }
  rewrite <- N.lxor_lor by assumption.
  rewrite <- N.add_nocarry_lxor by assumption.
  rewrite N.shiftl_mul_pow2. reflexivity.
Qed.

Lemma ten_bits (n : N) : (N.land n 1023 < 1024)%N.
Proof.
  change 1023%N with (N.ones 10). rewrite N.land_ones.
  apply N.mod_lt. discriminate.
Qed.

Lemma lor_high (x : N) : (x < 1024)%N -> N.lor 55296 x = (55296 + x)%N.
Proof.
  intros Hx. change 55296%N with (N.shiftl 54 10) at 1.
  rewrite lor_shiftl_10 by assumption. reflexivity.
Qed.

Lemma lor_low (x : N) : (x < 1024)%N -> N.lor 56320 x = (56320 + x)%N.
Proof.
  intros Hx. change 56320%N with (N.shiftl 55 10) at 1.
  rewrite lor_shiftl_10 by assumption. reflexivity.
Qed.

(** The surrogate pair [escape_char] writes for a character above the
    basic plane. *)
Lemma surrogate_pair (n : N) :
  let s1 := N.lor 55296 (N.land (N.shiftr n 10) 1023) in
  let s2 := N.lor 56320 (N.land n 1023) in
  high_surrogate s1 = true /\ low_surrogate s2 = true
  /\ (s1 < 65536)%N /\ (s2 < 65536)%N.
Proof.
  intros s1 s2.
  pose proof (ten_bits (N.shiftr n 10)) as H1.
  pose proof (ten_bits n) as H2.
  unfold s1, s2, high_surrogate, low_surrogate.
  rewrite lor_high, lor_low by assumption.
  repeat split; try lia; apply andb_true_iff; split; apply N.leb_le; lia.
Qed.

(** Below the bound of Unicode the pair decodes to the character. *)
Lemma combine_surrogate_pair (c : N) :
  (65536 <= c < 1114112)%N ->
  combine_surrogates
    (N.lor 55296 (N.land (N.shiftr (c - 65536) 10) 1023))
    (N.lor 56320 (N.land (c - 65536) 1023)) = c.
Proof.
  intros Hc. set (n := (c - 65536)%N).
  pose proof (ten_bits (N.shiftr n 10)) as H1.
  pose proof (ten_bits n) as H2.
  unfold combine_surrogates.
  rewrite lor_high, lor_low by assumption.
  replace (55296 + N.land (N.shiftr n 10) 1023 - 55296)%N
    with (N.land (N.shiftr n 10) 1023) by lia.
  replace (56320 + N.land n 1023 - 56320)%N
    with (N.land n 1023) by lia.
  rewrite lor_shiftl_10 by assumption.
  change 1023%N with (N.ones 10). rewrite !N.land_ones.
  rewrite N.shiftr_div_pow2. change (2 ^ 10)%N with 1024%N.
  assert (Hn : (n < 1048576)%N) by (unfold n; lia).
  rewrite (N.mod_small (n / 1024) 1024)
    by (apply N.Div0.div_lt_upper_bound; lia).
  pose proof (N.div_mod n 1024 ltac:(lia)). unfold n in *. lia.
Qed.

Lemma u_escape_eq (n : N) :
  u_escape n =
  [92; 117; hexdigit (n / 4096 mod 16); hexdigit (n / 256 mod 16);
   hexdigit (n / 16 mod 16); hexdigit (n mod 16)]%N.
Proof. reflexivity. Qed.

Lemma scan_plain (c : N) (X : pystr) :
  (c =? 34)%N = false -> (c =? 92)%N = false -> (c <? 32)%N = false ->
  scanstring (c :: X) = push c (scanstring X).
Proof. intros H1 H2 H3. simpl. rewrite H1, H2, H3. reflexivity. Qed.

Lemma scan_u_alone (a b c d uni : N) (X : pystr) :
  decode_uXXXX a b c d = Some uni ->
  high_surrogate uni = false ->
  scanstring (92 :: 117 :: a :: b :: c :: d :: X)%N = push uni (scanstring X).
Proof. intros H1 H2. simpl. rewrite H1, H2. reflexivity. Qed.

Lemma scan_u_pair (a b c d a2 b2 c2 d2 uni uni2 : N) (X : pystr) :
  decode_uXXXX a b c d = Some uni ->
  high_surrogate uni = true ->
  decode_uXXXX a2 b2 c2 d2 = Some uni2 ->
  low_surrogate uni2 = true ->
  scanstring (92 :: 117 :: a :: b :: c :: d
              :: 92 :: 117 :: a2 :: b2 :: c2 :: d2 :: X)%N
  = push (combine_surrogates uni uni2) (scanstring X).
Proof. intros H1 H2 H3 H4. simpl. rewrite H1, H2, H3, H4. reflexivity. Qed.

Lemma scan_u_high_alone (a b c d uni : N) (X : pystr) :
  decode_uXXXX a b c d = Some uni ->
  high_surrogate uni = true ->
  no_low_escape X = true ->
  scanstring (92 :: 117 :: a :: b :: c :: d :: X)%N = push uni (scanstring X).
Proof.
  intros H1 H2 H3. cbn [scanstring N.eqb Pos.eqb]. rewrite H1, H2.
  destruct X as [|e1 [|e2 [|a2 [|b2 [|c2 [|d2 X]]]]]]; try reflexivity.
  unfold no_low_escape in H3.
  destruct ((e1 =? 92) && (e2 =? 117))%N; [|reflexivity].
  destruct (decode_uXXXX a2 b2 c2 d2) as [uni2|]; [|discriminate].
  destruct (low_surrogate uni2); [discriminate | reflexivity].
Qed.

Lemma scan_backslash (e ch : N) (X : pystr) :
  (e =? 117)%N = false -> backslash e = Some ch ->
  scanstring (92 :: e :: X)%N = push ch (scanstring X).
Proof. intros H1 H2. simpl. rewrite H1, H2. reflexivity. Qed.

(** The escape of a character that [backslash] maps [e] back to. *)
Ltac backslash_escape e :=
  match goal with
  | E : (?c =? ?k)%N = true |- _ =>
      apply N.eqb_eq in E; subst c;
      apply (shape_backslash k e); reflexivity || lia
  end.

Lemma escape_char_shape (c : N) : escape_shape c (escape_char c).
Proof.
  unfold escape_char.
  destruct (c =? 92)%N eqn:E92; [backslash_escape 92%N|].
  destruct (c =? 34)%N eqn:E34; [backslash_escape 34%N|].
  destruct (c =? 8)%N eqn:E8; [backslash_escape 98%N|].
  destruct (c =? 12)%N eqn:E12; [backslash_escape 102%N|].
  destruct (c =? 10)%N eqn:E10; [backslash_escape 110%N|].
  destruct (c =? 13)%N eqn:E13; [backslash_escape 114%N|].
  destruct (c =? 9)%N eqn:E9; [backslash_escape 116%N|].
  destruct ((32 <=? c) && (c <=? 126))%N eqn:Eprint.
  { apply andb_true_iff in Eprint. destruct Eprint as [H1 H2].
    apply N.leb_le in H1, H2. apply shape_plain; auto. }
  destruct (c <? 65536)%N eqn:Ebmp.
  { apply N.ltb_lt in Ebmp. apply shape_u. assumption. }
  apply N.ltb_ge in Ebmp. apply shape_pair. assumption.
Qed.

Lemma small_is_no_surrogate (c : N) :
  (c <= 126)%N -> high_surrogate c = false /\ low_surrogate c = false.
Proof.
  intros H. unfold high_surrogate, low_surrogate.
  split; apply andb_false_iff; left; apply N.leb_gt; lia.
Qed.

Lemma surrogates_apart (c : N) :
  high_surrogate c = true -> low_surrogate c = false.
Proof.
  unfold high_surrogate, low_surrogate. intros H.
  apply andb_true_iff in H. destruct H as [_ H]. apply N.leb_le in H.
  apply andb_false_iff. left. apply N.leb_gt. lia.
Qed.

Lemma surrogate_below (c : N) :
  high_surrogate c = true \/ low_surrogate c = true -> (c < 65536)%N.
Proof.
  unfold high_surrogate, low_surrogate.
  intros [H|H]; apply andb_true_iff in H; destruct H as [_ H];
    apply N.leb_le in H; lia.
Qed.

(** Whether the text after a high surrogate completes a pair. *)
Lemma no_low_escape_escape_char (d : N) (Y : pystr) :
  no_low_escape (escape_char d ++ Y) = negb (low_surrogate d).
Proof.
  destruct (escape_char_shape d) as [e He Hu Hd | H34 H92 Hd | Hd | Hd].
  - destruct (small_is_no_surrogate d Hd) as [_ ->].
    destruct Y as [|y1 [|y2 [|y3 [|y4 Y]]]]; try reflexivity.
    simpl. rewrite Hu. reflexivity.
  - destruct (small_is_no_surrogate d (proj2 Hd)) as [_ ->].
    destruct Y as [|y1 [|y2 [|y3 [|y4 [|y5 Y]]]]]; try reflexivity.
    simpl. rewrite H92. reflexivity.
  - rewrite u_escape_eq. cbn [app no_low_escape N.eqb Pos.eqb andb].
    rewrite decode_format_04x by assumption. reflexivity.
  - destruct (surrogate_pair (d - 65536)) as (Hhigh & _ & Hlt & _).
    set (s1 := N.lor 55296 _) in *. set (s2 := N.lor 56320 _) in *.
    rewrite (u_escape_eq s1). cbn [app no_low_escape N.eqb Pos.eqb andb].
    rewrite decode_format_04x by assumption.
    rewrite (surrogates_apart _ Hhigh).
    destruct (low_surrogate d) eqn:Hlow; [|reflexivity].
    pose proof (surrogate_below d (or_intror Hlow)). lia.
Qed.

Lemma no_low_escape_quote (rest : pystr) : no_low_escape (34%N :: rest) = true.
Proof.
  destruct rest as [|y1 [|y2 [|y3 [|y4 [|y5 rest]]]]]; reflexivity.
Qed.

(** One escape, read back.  A character that is not a high surrogate
    decodes on its own. *)
Lemma scan_escape_char (c : N) (X : pystr) :
  high_surrogate c = false ->
  scanstring (escape_char c ++ X)
  = push (if (65536 <=? c)%N then above_bmp_decoded c else c) (scanstring X).
Proof.
  intros Hhigh.
  destruct (escape_char_shape c) as [e He Hu Hc | H34 H92 Hc | Hc | Hc].
  - replace (65536 <=? c)%N with false by (symmetry; apply N.leb_gt; lia).
    apply scan_backslash; assumption.
  - replace (65536 <=? c)%N with false by (symmetry; apply N.leb_gt; lia).
    apply scan_plain; auto. apply N.ltb_ge. lia.
  - replace (65536 <=? c)%N with false by (symmetry; apply N.leb_gt; lia).
    rewrite u_escape_eq. simpl app.
    apply scan_u_alone; [apply decode_format_04x|]; assumption.
  - replace (65536 <=? c)%N with true by (symmetry; apply N.leb_le; lia).
    destruct (surrogate_pair (c - 65536)) as (H1 & H2 & H3 & H4).
    rewrite !u_escape_eq. simpl app.
    apply scan_u_pair; try apply decode_format_04x; assumption.
Qed.

Lemma scan_high_pair (c d : N) (X : pystr) :
  high_surrogate c = true -> low_surrogate d = true ->
  scanstring (escape_char c ++ escape_char d ++ X)
  = push (combine_surrogates c d) (scanstring X).
Proof.
  intros Hc Hd.
  pose proof (surrogate_below c (or_introl Hc)) as Hc'.
  pose proof (surrogate_below d (or_intror Hd)) as Hd'.
  destruct (escape_char_shape c) as [e He Hu Hs | H34 H92 Hs | _ | Hs];
    try (destruct (small_is_no_surrogate c ltac:(lia)); congruence);
    try lia.
  destruct (escape_char_shape d) as [e He Hu Hs | H34 H92 Hs | _ | Hs];
    try (destruct (small_is_no_surrogate d ltac:(lia)); congruence);
    try lia.
  rewrite !u_escape_eq. simpl app.
  apply scan_u_pair; try apply decode_format_04x; assumption.
Qed.

Lemma scan_high_alone (c : N) (X : pystr) :
  high_surrogate c = true -> no_low_escape X = true ->
  scanstring (escape_char c ++ X) = push c (scanstring X).
Proof.
  intros Hc HX.
  pose proof (surrogate_below c (or_introl Hc)) as Hc'.
  destruct (escape_char_shape c) as [e He Hu Hs | H34 H92 Hs | _ | Hs];
    try (destruct (small_is_no_surrogate c ltac:(lia)); congruence);
    try lia.
  rewrite u_escape_eq. simpl app.
  apply scan_u_high_alone; try apply decode_format_04x; assumption.
Qed.

(** [scanstring] reads a string that [encode_basestring_ascii] wrote up
    to its closing quote, and decodes it. *)
Lemma scanstring_escaped (s rest : pystr) :
  scanstring (flat_map escape_char s ++ 34%N :: rest)
  = Some (decoded s, rest).
Proof.
  enough (H : (forall rest, scanstring (flat_map escape_char s ++ 34%N :: rest)
                            = Some (decoded s, rest))
              /\ (forall c rest,
                    scanstring (flat_map escape_char (c :: s) ++ 34%N :: rest)
                    = Some (decoded (c :: s), rest))) by apply H.
  induction s as [|d s [IH1 IH2]].
  - split; [reflexivity|]. intros c rest'. cbn [flat_map decoded].
    rewrite app_nil_r.
    destruct (high_surrogate c) eqn:Hc.
    + replace (65536 <=? c)%N with false
        by (symmetry; apply N.leb_gt; apply surrogate_below; auto).
      rewrite scan_high_alone by (auto using no_low_escape_quote).
      reflexivity.
    + rewrite scan_escape_char by assumption.
      destruct (65536 <=? c)%N; reflexivity.
  - split; [exact (IH2 d)|]. intros c rest'.
    change (flat_map escape_char (c :: d :: s))
      with (escape_char c ++ flat_map escape_char (d :: s)).
    rewrite <- app_assoc.
    destruct (high_surrogate c) eqn:Hc.
    + cbn [decoded].
      replace (65536 <=? c)%N with false
        by (symmetry; apply N.leb_gt; apply surrogate_below; auto).
      rewrite Hc.
      destruct (low_surrogate d) eqn:Hd.
      * change (flat_map escape_char (d :: s))
          with (escape_char d ++ flat_map escape_char s).
        rewrite <- app_assoc, scan_high_pair by assumption.
        rewrite IH1. reflexivity.
      * rewrite scan_high_alone; [rewrite IH2; reflexivity | assumption |].
        change (flat_map escape_char (d :: s))
          with (escape_char d ++ flat_map escape_char s).
        rewrite <- app_assoc, no_low_escape_escape_char, Hd. reflexivity.
    + rewrite scan_escape_char by assumption. rewrite IH2.
      cbn [decoded]. rewrite Hc.
      destruct (65536 <=? c)%N; reflexivity.
Qed.

Lemma decoded_well_formed (s : pystr) : well_formed s = true -> decoded s = s.
Proof.
  unfold well_formed. induction s as [|c s IH]; [reflexivity|].
  cbn [forallb decoded]. intros H. apply andb_true_iff in H.
  destruct H as [Hc Hs]. specialize (IH Hs).
  unfold scalar_value in Hc.
  destruct (65536 <=? c)%N eqn:Hbmp.
  - apply N.leb_le in Hbmp. unfold above_bmp_decoded. cbv zeta.
    rewrite combine_surrogate_pair, IH; [reflexivity|].
    apply orb_true_iff in Hc. destruct Hc as [Hc|Hc].
    + apply N.ltb_lt in Hc. lia.
    + apply andb_true_iff in Hc. destruct Hc as [_ Hc].
      apply N.ltb_lt in Hc. lia.
  - apply N.leb_gt in Hbmp.
    assert (Hhigh : high_surrogate c = false).
    { unfold high_surrogate. apply andb_false_iff.
      apply orb_true_iff in Hc. destruct Hc as [Hc|Hc].
      - apply N.ltb_lt in Hc. left. apply N.leb_gt. lia.
      - apply andb_true_iff in Hc. destruct Hc as [Hc _].
        apply N.leb_le in Hc. right. apply N.leb_gt. lia. }
    rewrite Hhigh, IH. reflexivity.
Qed.

(** *** Printable output *)

Lemma printable_app (s t : pystr) :
  printable s -> printable t -> printable (s ++ t).
Proof. intros Hs Ht. apply Forall_app. split; assumption. Qed.

Lemma printable_py (s : string) :
  forallb (fun ch => (32 <=? ch) && (ch <=? 126))%N (py s) = true ->
  printable (py s).
Proof.
  intros H. apply Forall_forall. intros ch Hin.
  rewrite forallb_forall in H. specialize (H ch Hin).
  apply andb_true_iff in H. destruct H as [H1 H2].
  apply N.leb_le in H1, H2. lia.
Qed.

Lemma printable_u_escape (n : N) : printable (u_escape n).
Proof.
  rewrite u_escape_eq.
  repeat constructor; try lia;
    apply hexdigit_printable; apply N.mod_lt; lia.
Qed.

Lemma printable_escape_char (c : N) : printable (escape_char c).
Proof.
  destruct (escape_char_shape c) as [e He Hu Hc | H34 H92 Hc | Hc | Hc].
  - unfold backslash in He.
    repeat match type of He with
           | context [N.eqb e ?k] =>
               destruct (N.eqb_spec e k) as [Heq|_];
               [subst e; repeat constructor; lia|]
           end.
    discriminate.
  - repeat constructor; lia.
  - apply printable_u_escape.
  - apply printable_app; apply printable_u_escape.
Qed.

Lemma printable_encode (s : pystr) : printable (encode_basestring_ascii s).
Proof.
  unfold encode_basestring_ascii.
  apply printable_app; [repeat constructor; lia|].
  apply printable_app; [|repeat constructor; lia].
  induction s as [|c s IH]; [constructor|].
  cbn [flat_map]. apply printable_app; [apply printable_escape_char | exact IH].
Qed.

Lemma printable_join (sep : pystr) (l : list pystr) :
  printable sep -> Forall printable l -> printable (join sep l).
Proof.
  intros Hsep Hl. induction Hl as [|w ws Hw Hws IH]; [constructor|].
  destruct ws as [|w' ws]; [exact Hw|].
  change (join sep (w :: w' :: ws)) with (w ++ sep ++ join sep (w' :: ws)).
  auto using printable_app.
Qed.

(** *** Reading values back *)

Lemma encode_app (s rest : pystr) :
  encode_basestring_ascii s ++ rest
  = 34%N :: flat_map escape_char s ++ 34%N :: rest.
Proof.
  unfold encode_basestring_ascii. cbn [app]. rewrite <- app_assoc.
  reflexivity.
Qed.

Lemma scans_string (fuel : nat) (s : pystr) :
  scans (S fuel) (encode_basestring_ascii s) (JString (decoded s)).
Proof.
  intros rest. rewrite encode_app. split; [|reflexivity].
  cbn [scan_once N.eqb Pos.eqb]. rewrite scanstring_escaped. reflexivity.
Qed.

Lemma scans_null (fuel : nat) : scans (S fuel) (py "null") JNull.
Proof. intros rest. split; reflexivity. Qed.

Lemma scan_items_S (fuel : nat) (s : pystr) :
  scan_items (S fuel) s =
  match scan_once fuel s with
  | None => None
  | Some (v, rest) =>
      match skip_whitespace rest with
      | d :: rest' =>
          if (d =? 93)%N then Some ([v], rest')
          else if (d =? 44)%N then
            match scan_items fuel (skip_whitespace rest') with
            | Some (items, rest'') => Some (v :: items, rest'')
            | None => None
            end
          else None
      | [] => None
      end
  end.
Proof. reflexivity. Qed.

(** A list of strings opens with a quote. *)
Lemma strings_solid (s : pystr) (l : list pystr) (x : pystr) :
  exists tl,
    join (py ", ") (map encode_basestring_ascii (s :: l)) ++ x = 34%N :: tl.
Proof.
  destruct l; cbn [map join]; rewrite <- ?app_assoc, encode_app; eauto.
Qed.

Lemma scan_items_strings (l : list pystr) :
  forall (s : pystr) (fuel : nat) (rest : pystr),
    (List.length l < fuel)%nat ->
    scan_items (S fuel)
      (join (py ", ") (map encode_basestring_ascii (s :: l)) ++ 93%N :: rest)
    = Some (map JString (map decoded (s :: l)), rest).
Proof.
  induction l as [|s2 l IH]; intros s fuel rest Hfuel;
    destruct fuel as [|fuel]; try (simpl in Hfuel; lia);
    rewrite (scan_items_S (S fuel)).
  - cbn [map join].
    destruct (scans_string fuel s (93%N :: rest)) as [-> _].
    reflexivity.
  - change (join (py ", ") (map encode_basestring_ascii (s :: s2 :: l)))
      with (encode_basestring_ascii s ++ py ", "
            ++ join (py ", ") (map encode_basestring_ascii (s2 :: l))).
    rewrite <- !app_assoc.
    destruct (scans_string fuel s
                (py ", " ++ join (py ", ")
                   (map encode_basestring_ascii (s2 :: l)) ++ 93%N :: rest))
      as [-> _].
    change (py ", " ++ ?x) with (44%N :: 32%N :: x).
    cbn [skip_whitespace char_in existsb N.eqb Pos.eqb orb].
    destruct (strings_solid s2 l (93%N :: rest)) as [tl Htl].
    rewrite Htl. cbn [skip_whitespace char_in existsb N.eqb Pos.eqb orb].
    rewrite <- Htl.
    rewrite (IH s2 fuel rest) by (simpl in Hfuel; lia).
    reflexivity.
Qed.

Lemma scan_once_array (fuel : nat) (s : pystr) :
  scan_once (S fuel) (91%N :: 34%N :: s) =
  match scan_items fuel (34%N :: s) with
  | Some (items, rest') => Some (JArray items, rest')
  | None => None
  end.
Proof. reflexivity. Qed.

Lemma scans_array (fuel : nat) (l : list pystr) :
  (S (List.length l) < fuel)%nat ->
  scans fuel (dumps (JArray (map JString l)))
    (JArray (map JString (map decoded l))).
Proof.
  intros Hfuel rest. split; [|reflexivity].
  destruct fuel as [|[|fuel]]; try lia.
  destruct l as [|s l]; [reflexivity|].
  cbn [dumps]. rewrite map_map.
  change (map (fun x => dumps (JString x)) (s :: l))
    with (map encode_basestring_ascii (s :: l)).
  change (py "[" ++ ?x) with (91%N :: x).
  change (py "]") with [93%N].
  cbn [app]. rewrite <- app_assoc. cbn [app].
  destruct (strings_solid s l (93%N :: rest)) as [tl Htl].
  rewrite Htl, scan_once_array, <- Htl.
  rewrite (scan_items_strings l s fuel rest) by (simpl in Hfuel; lia).
  reflexivity.
Qed.

Lemma scan_members_S (fuel : nat) (s : pystr) :
  scan_members (S fuel) (34%N :: s) =
  match scanstring s with
  | None => None
  | Some (key, rest) =>
      match skip_whitespace rest with
      | colon :: rest1 =>
          if (colon =? 58)%N then
            match scan_once fuel (skip_whitespace rest1) with
            | None => None
            | Some (v, rest2) =>
                match skip_whitespace rest2 with
                | d :: rest3 =>
                    if (d =? 125)%N then Some ([(key, v)], rest3)
                    else if (d =? 44)%N then
                      match scan_members fuel (skip_whitespace rest3) with
                      | Some (members, rest4) =>
                          Some ((key, v) :: members, rest4)
                      | None => None
                      end
                    else None
                | [] => None
                end
            end
          else None
      | [] => None
      end
  end.
Proof. reflexivity. Qed.

Lemma scan_once_object (fuel : nat) (s : pystr) :
  scan_once (S fuel) (123%N :: 34%N :: s) =
  match scan_members fuel (34%N :: s) with
  | Some (members, rest') => Some (JObject members, rest')
  | None => None
  end.
Proof. reflexivity. Qed.

Lemma scan_member_value (fuel : nat) (key txt : pystr) (v : json)
    (rest : pystr) :
  scans fuel txt v ->
  scan_members (S fuel) (member_text key txt ++ rest) =
  match skip_whitespace rest with
  | d :: rest3 =>
      if (d =? 125)%N then Some ([(decoded key, v)], rest3)
      else if (d =? 44)%N then
        match scan_members fuel (skip_whitespace rest3) with
        | Some (members, rest4) => Some ((decoded key, v) :: members, rest4)
        | None => None
        end
      else None
  | [] => None
  end.
Proof.
  intros Hv. unfold member_text. rewrite <- !app_assoc, encode_app.
  rewrite scan_members_S, scanstring_escaped.
  change (py ": " ++ ?x) with (58%N :: 32%N :: x).
  cbn [skip_whitespace char_in existsb N.eqb Pos.eqb orb].
  destruct (Hv rest) as [Hscan Hskip]. rewrite Hskip, Hscan.
  reflexivity.
Qed.

Lemma scan_members_last (fuel : nat) (key txt : pystr) (v : json)
    (rest : pystr) :
  scans fuel txt v ->
  scan_members (S fuel) (member_text key txt ++ py "}" ++ rest)
  = Some ([(decoded key, v)], rest).
Proof.
  intros Hv. rewrite (scan_member_value fuel key txt v _ Hv). reflexivity.
Qed.

Lemma scan_members_more (fuel : nat) (key txt : pystr) (v : json)
    (key' txt' more : pystr) (members : list (pystr * json)) (rest : pystr) :
  scans fuel txt v ->
  scan_members fuel (member_text key' txt' ++ more) = Some (members, rest) ->
  scan_members (S fuel)
    (member_text key txt ++ py ", " ++ member_text key' txt' ++ more)
  = Some ((decoded key, v) :: members, rest).
Proof.
  intros Hv Hmore. rewrite (scan_member_value fuel key txt v _ Hv).
  change (py ", " ++ ?x) with (44%N :: 32%N :: x).
  cbn [skip_whitespace char_in existsb N.eqb Pos.eqb orb].
  assert (Hsolid : skip_whitespace (member_text key' txt' ++ more)
                   = member_text key' txt' ++ more).
  { unfold member_text. rewrite <- !app_assoc, encode_app. reflexivity. }
  rewrite Hsolid, Hmore. reflexivity.
Qed.

(** The text [dumps] writes for a product, member by member. *)
Lemma dumps_dict_of (product : ProductData) :
  dumps (dict_of product)
  = py "{"
    ++ member_text (py "title") (encode_basestring_ascii (title product))
    ++ py ", "
    ++ member_text (py "description")
         (encode_basestring_ascii (description product))
    ++ py ", "
    ++ member_text (py "subtitle")
         (encode_basestring_ascii (subtitle product))
    ++ py ", "
    ++ member_text (py "url") (encode_basestring_ascii (product_url product))
    ++ py ", "
    ++ member_text (py "sections") (dumps (sections_json product))
    ++ py "}".
Proof.
  unfold dict_of, member_text, sections_json. cbn [dumps map join fst snd].
  rewrite <- !app_assoc. reflexivity.
Qed.

Lemma scans_sections (fuel : nat) (product : ProductData) :
  (S (sections_count product) < fuel)%nat ->
  scans fuel (dumps (sections_json product))
    (sections_json (decoded_product product)).
Proof.
  unfold sections_count, sections_json, decoded_product. cbn [sections].
  destruct (sections product) as [l|]; intros Hfuel.
  - cbn [option_map]. apply scans_array. exact Hfuel.
  - destruct fuel; [lia|]. apply scans_null.
Qed.

(** The scanner reads the text of a product back as an object with the
    five members, in order. *)
Lemma scan_once_product (fuel : nat) (product : ProductData) (rest : pystr) :
  (sections_count product + 7 < fuel)%nat ->
  scan_once fuel (dumps (dict_of product) ++ rest)
  = Some (dict_of (decoded_product product), rest).
Proof.
  intros Hfuel.
  do 7 (destruct fuel as [|fuel]; [lia|]).
  rewrite dumps_dict_of. rewrite <- !app_assoc.
  change (py "{" ++ ?x) with (123%N :: x).
  unfold member_text at 1. rewrite <- !app_assoc, encode_app.
  rewrite scan_once_object.
  rewrite <- encode_app.
  change (encode_basestring_ascii (py "title") ++ py ": " ++ ?t ++ ?x)
    with (member_text (py "title") t ++ x).
  rewrite (scan_members_more (S (S (S (S (S fuel))))) (py "title") _
             (JString (decoded (title product))) (py "description") _ _
             [(py "description", JString (decoded (description product)));
              (py "subtitle", JString (decoded (subtitle product)));
              (py "url", JString (decoded (product_url product)));
              (py "sections", sections_json (decoded_product product))]
             rest).
  - reflexivity.
  - apply scans_string.
  - rewrite (scan_members_more (S (S (S (S fuel)))) (py "description") _
               (JString (decoded (description product))) (py "subtitle") _ _
               [(py "subtitle", JString (decoded (subtitle product)));
                (py "url", JString (decoded (product_url product)));
                (py "sections", sections_json (decoded_product product))]
               rest); [reflexivity | apply scans_string |].
    rewrite (scan_members_more (S (S (S fuel))) (py "subtitle") _
               (JString (decoded (subtitle product))) (py "url") _ _
               [(py "url", JString (decoded (product_url product)));
                (py "sections", sections_json (decoded_product product))]
               rest); [reflexivity | apply scans_string |].
    rewrite (scan_members_more (S (S fuel)) (py "url") _
               (JString (decoded (product_url product))) (py "sections") _ _
               [(py "sections", sections_json (decoded_product product))]
               rest); [reflexivity | apply scans_string |].
    rewrite (scan_members_last (S fuel) (py "sections") _
               (sections_json (decoded_product product)) rest);
      [reflexivity|].
    apply scans_sections. lia.
Qed.

Lemma length_encode (s : pystr) :
  (2 <= List.length (encode_basestring_ascii s))%nat.
Proof.
  unfold encode_basestring_ascii. rewrite !length_app. simpl. lia.
Qed.

Lemma length_join_strings (sep : pystr) (l : list pystr) :
  (List.length l
   <= List.length (join sep (map encode_basestring_ascii l)))%nat.
Proof.
  induction l as [|s l IH]; [cbn [List.length]; lia|].
  pose proof (length_encode s) as Hs.
  destruct l as [|s2 l]; [cbn [map join List.length]; lia|].
  change (join sep (map encode_basestring_ascii (s :: s2 :: l)))
    with (encode_basestring_ascii s ++ sep
          ++ join sep (map encode_basestring_ascii (s2 :: l))).
  rewrite !length_app. cbn [List.length] in *. lia.
Qed.

Lemma length_dumps_product (product : ProductData) :
  (sections_count product + 7
   < S (List.length (dumps (dict_of product))))%nat.
Proof.
  rewrite dumps_dict_of. unfold member_text. rewrite !length_app.
  assert (H : (sections_count product
               <= List.length (dumps (sections_json product)))%nat).
  { unfold sections_count, sections_json.
    destruct (sections product) as [l|]; [|simpl; lia].
    cbn [dumps].
    replace (map dumps (map JString l))
      with (map encode_basestring_ascii l)
      by (rewrite map_map; reflexivity).
    rewrite !length_app.
    pose proof (length_join_strings (py ", ") l) as Hl. lia. }
  assert (Hkey : List.length (encode_basestring_ascii (py "title")) = 7%nat)
    by reflexivity.
  lia.
Qed.

(** [json.loads] reads the text of a product back as an object with its
    five members. *)
Lemma loads_dumps_product (product : ProductData) :
  loads (dumps (dict_of product)) = Some (dict_of (decoded_product product)).
Proof.
  unfold loads.
  assert (Hsolid : skip_whitespace (dumps (dict_of product))
                   = dumps (dict_of product))
    by (rewrite dumps_dict_of; reflexivity).
  rewrite Hsolid.
  rewrite <- (app_nil_r (dumps (dict_of product))) at 2.
  rewrite scan_once_product by apply length_dumps_product.
  reflexivity.
Qed.

Lemma decoded_product_well_formed (product : ProductData) :
  well_formed_product product = true -> decoded_product product = product.
Proof.
  unfold well_formed_product, decoded_product. intros H.
  repeat (apply andb_true_iff in H; destruct H as [H ?]).
  destruct product as [t d s u secs]. cbn [title description subtitle
    product_url sections] in *.
  rewrite !decoded_well_formed by assumption.
  f_equal. destruct secs as [l|]; [|reflexivity].
  cbn [option_map]. f_equal.
  match goal with Hl : forallb well_formed l = true |- _ =>
    rewrite forallb_forall in Hl; rename Hl into Hall end.
  induction l as [|x l IH]; [reflexivity|].
  cbn [map]. rewrite decoded_well_formed by (apply Hall; left; reflexivity).
  rewrite IH by (intros y Hy; apply Hall; right; exact Hy). reflexivity.
Qed.

Lemma printable_dumps_product (product : ProductData) :
  printable (dumps (dict_of product)).
Proof.
  rewrite dumps_dict_of. unfold member_text.
  repeat first
    [ apply printable_encode
    | apply printable_py; reflexivity
    | apply printable_app ].
  unfold sections_json. destruct (sections product) as [l|].
  - cbn [dumps].
    apply printable_app; [apply printable_py; reflexivity|].
    apply printable_app; [|apply printable_py; reflexivity].
    apply printable_join; [apply printable_py; reflexivity|].
    apply Forall_forall. intros x Hx. apply in_map_iff in Hx.
    destruct Hx as (v & <- & Hv). apply in_map_iff in Hv.
    destruct Hv as (s & <- & _). apply printable_encode.
  - apply printable_py. reflexivity.
Qed.

Lemma printable_no_newline (s : pystr) : printable s -> ~ In 10%N s.
Proof.
  intros Hs Hin. unfold printable in Hs. rewrite Forall_forall in Hs.
  specialize (Hs _ Hin). lia.
Qed.

(** *** Lines *)

Lemma split_line (line rest : pystr) :
  ~ In 10%N line ->
  split 10%N (line ++ 10%N :: rest) = line :: split 10%N rest.
Proof.
  induction line as [|c line IH]; intros Hline.
  - cbn [app split]. destruct (split 10%N rest) as [|x xs] eqn:E.
    + destruct rest; simpl in E; [discriminate|].
      destruct (split 10%N rest); [discriminate|].
      destruct (_ =? _)%N; discriminate.
    + reflexivity.
  - cbn [app split]. rewrite IH by (intros H; apply Hline; right; exact H).
    destruct (N.eqb_spec c 10) as [->|_]; [|reflexivity].
    exfalso. apply Hline. left. reflexivity.
Qed.

Lemma split_terminated_lines (lines : list pystr) :
  Forall (fun line => ~ In 10%N line) lines ->
  split 10%N (flat_map (fun line => line ++ [10%N]) lines) = lines ++ [ [] ].
Proof.
  induction 1 as [|line lines Hline _ IH]; [reflexivity|].
  cbn [flat_map]. rewrite <- app_assoc. cbn [app].
  rewrite split_line, IH by assumption. reflexivity.
Qed.

Lemma readlines_lines (lines : list pystr) :
  Forall (fun line => ~ In 10%N line) lines ->
  readlines (flat_map (fun line => line ++ [10%N]) lines) = lines.
Proof.
  intros Hlines. unfold readlines.
  destruct (flat_map (fun line => line ++ [10%N]) lines) as [|c data] eqn:E.
  - destruct lines as [|line lines]; [reflexivity|].
    cbn [flat_map] in E. apply app_eq_nil in E. destruct E as [E _].
    apply app_eq_nil in E. destruct E as [_ E]. discriminate.
  - rewrite <- E, split_terminated_lines by assumption.
    rewrite last_last, removelast_last. reflexivity.
Qed.

(** The sink holds the products' texts, one to a line. *)
Lemma readlines_sink (products : list ProductData) :
  readlines (flat_map sink_line products)
  = map (fun product => dumps (dict_of product)) products.
Proof.
  replace (flat_map sink_line products)
    with (flat_map (fun line => line ++ [10%N])
            (map (fun product => dumps (dict_of product)) products)).
  - apply readlines_lines. apply Forall_forall. intros line Hin.
    apply in_map_iff in Hin. destruct Hin as (product & <- & _).
    apply printable_no_newline, printable_dumps_product.
  - induction products as [|p ps IH]; [reflexivity|].
    cbn [map flat_map]. rewrite IH. reflexivity.
Qed.

(** *** What the run leaves in the sink *)

Section Sink.

Variable w : World.

(** What the loop has written when it started with [out] in the sink. *)
Lemma write_products_out (crawler : Crawler) (page_urls : list pystr) :
  forall out,
    write_products w crawler page_urls out
    = (out ++ fst (write_products w crawler page_urls []),
       snd (write_products w crawler page_urls [])).
Proof.
  induction page_urls as [|url rest IH]; intros out.
  - cbn. rewrite app_nil_r. reflexivity.
  - cbn [write_products].
    destruct (snd (crawl_page w crawler url (py "product")))
      as [[product|]|e].
    + rewrite (IH (out ++ sink_line product)), (IH ([] ++ sink_line product)).
      cbn [fst snd app]. rewrite <- app_assoc. reflexivity.
    + apply IH.
    + cbn. rewrite app_nil_r. reflexivity.
Qed.

(** C3: for a product that a worker returned, the loop appends one line
    to the sink: after what the sink held come the text [json.dumps]
    gives for the product's [__dict__], a newline, and then what the loop
    writes for the URLs that remain.  The text holds no newline.  It is
    a JSON object (not an array) whose members are [title],
    [description], [subtitle], [url] and [sections], in this order, with
    the strings of the product as values: [json.loads] reads it back as
    such, and as the product's own [__dict__] when its strings are well
    formed. *)
Theorem sink_write_is_one_json_line (crawler : Crawler) (url : pystr)
    (rest : list pystr) (out : pystr) (product : ProductData) :
  snd (crawl_page w crawler url (py "product")) = Return (Some product) ->
  exists line,
    line = dumps (dict_of product)
    /\ fst (write_products w crawler (url :: rest) out)
       = out ++ line ++ [10%N] ++ fst (write_products w crawler rest [])
    /\ snd (write_products w crawler (url :: rest) out)
       = snd (write_products w crawler rest [])
    /\ write_products w crawler (url :: rest) out
       = write_products w crawler rest (out ++ line ++ [10%N])
    /\ ~ In 10%N line
    /\ loads line
       = Some (JObject
                 [(py "title", JString (decoded (title product)));
                  (py "description",
                   JString (decoded (description product)));
                  (py "subtitle", JString (decoded (subtitle product)));
                  (py "url", JString (decoded (product_url product)));
                  (py "sections", sections_json (decoded_product product))])
    /\ (well_formed_product product = true ->
        loads line = Some (dict_of product)).
Proof.
  intros Hproduct. exists (dumps (dict_of product)).
  pose proof (write_products_Some w crawler url rest out product Hproduct)
    as Hstep.
  unfold sink_line in Hstep.
  split; [reflexivity|].
  split; [|split; [|split; [exact Hstep|repeat split]]].
  - rewrite Hstep, (write_products_out crawler rest). cbn [fst].
    rewrite <- !app_assoc. reflexivity.
  - rewrite Hstep, (write_products_out crawler rest). reflexivity.
  - apply printable_no_newline, printable_dumps_product.
  - apply loads_dumps_product.
  - intros Hwf. rewrite loads_dumps_product.
    rewrite decoded_product_well_formed by assumption. reflexivity.
Qed.

(** Once the sitemap is resolved the sink is opened for writing, and
    what it holds at the end does not depend on what it held. *)
Lemma download_and_save_sink (fs : filesystem) (file_name : pystr)
    (split_lines : bool) (pages : list SitemapPage) :
  download_sitemap w (Crawler_init page_url true split_lines)
    (Some (page_url ++ py "sitemap.xml")) = Return pages ->
  fst (download_and_save w fs file_name split_lines)
    (os_path_join (DATA_DIR w) file_name)
  = Some match dispatched pages with
         | Return page_urls =>
             fst (write_products w (Crawler_init page_url true split_lines)
                    page_urls [])
         | Raise _ => []
         end.
Proof.
  intros Hpages. unfold download_and_save. rewrite Hpages.
  destruct (dispatched pages) as [page_urls|e].
  - destruct (write_products w _ page_urls []) as [out r]. simpl.
    unfold write_file. rewrite str_eqb_refl. reflexivity.
  - simpl. unfold write_file. rewrite str_eqb_refl. reflexivity.
Qed.


End Sink.

(** ** The example shop *)

(** C1 fails on a page where every selector matches an element without
    text: the call returns a product whose three fields are empty. *)
Lemma blank_page_gives_a_product :
  crawl_page (shop []) the_crawler (py "https://mamaearth.in/product/blank")
    (py "product")
  = ([],
     Return
       (Some {| title := [];
                description := [];
                subtitle := [];
                product_url := py "https://mamaearth.in/product/blank";
                sections := Some [py "product"; py "product/blank"] |})).
Proof. vm_compute. reflexivity. Qed.

Lemma product_requires_every_selector_witness :
  (exists resp soup name header paragraph sub,
     requests_get (shop []) (py "https://mamaearth.in/product/onion-oil")
     = Return resp
     /\ ok resp = true
     /\ BeautifulSoup (shop []) (content resp) = Return soup
     /\ find soup (py "h1") (Some (py "product-name")) = Some name
     /\ find soup (py "h2") (Some (py "product-description-header"))
        = Some header
     /\ find (parent header) (py "p") None = Some paragraph
     /\ find soup (py "div") (Some (py "product-subtitle")) = Some sub
     /\ title onion_oil = text (element name)
     /\ description onion_oil = text (element paragraph)
     /\ subtitle onion_oil = text (element sub))
  /\ snd (crawl_page (shop []) the_crawler
            (py "https://mamaearth.in/product/untitled") (py "product"))
     = Return None.
Proof.
  split.
  - apply (proj1 (product_requires_every_selector (shop []) the_crawler
                    (py "https://mamaearth.in/product/onion-oil")
                    (py "product"))).
    vm_compute. reflexivity.
  - apply (proj2 (product_requires_every_selector (shop []) the_crawler
                    (py "https://mamaearth.in/product/untitled")
                    (py "product"))
             [py "product"; py "product/untitled"]
             {| status_code := 200; content := py "untitled" |}
             untitled_page);
      try (vm_compute; reflexivity).
    left. vm_compute. reflexivity.
Defined.

Lemma content_selector_is_ignored_witness :
  crawl_page (shop []) the_crawler
    (py "https://mamaearth.in/product/onion-oil") (py "product")
  = crawl_page (shop []) the_crawler
      (py "https://mamaearth.in/product/onion-oil") (py "article")
  /\ snd (crawl_page (shop []) the_crawler
            (py "https://mamaearth.in/product/onion-oil") (py "product"))
     = Return (Some onion_oil).
Proof.
  pose proof (content_selector_is_ignored (shop []) the_crawler
                (py "https://mamaearth.in/product/onion-oil")
                (py "product") (py "article")) as [Hsame Hfields].
  split; [exact Hsame|].
  apply Hfields.
  exists [py "product"; py "product/onion-oil"],
    {| status_code := 200; content := py "onion oil" |}, onion_oil_page.
  do 4 eexists. repeat split; vm_compute; reflexivity.
Defined.

(** C2 fails when [requests.get] raises: the exception leaves
    [crawl_page], and the run ends with it before the next URL, whose
    product a run without the failing URL does write. *)
Lemma transport_error_ends_the_run :
  crawl_page (shop []) the_crawler (py "https://mamaearth.in/product/down")
    (py "product")
  = ([], Raise (RequestException (py "Connection refused")))
  /\ snd (download_and_save
            (shop ["/product/down"; "/product/onion-oil"]%string)
            no_files abstracts true)
     = Raise (RequestException (py "Connection refused"))
  /\ fst (download_and_save
            (shop ["/product/down"; "/product/onion-oil"]%string)
            no_files abstracts true) sink_path
     = Some []
  /\ download_and_save (shop ["/product/onion-oil"]%string) no_files
       abstracts true
     = (write_file no_files sink_path (sink_line onion_oil), Return tt).
Proof. repeat split; vm_compute; reflexivity. Qed.

Lemma status_and_selector_errors_are_captured_witness :
  (snd (crawl_page (shop []) the_crawler
          (py "https://mamaearth.in/product/gone") (py "product"))
   = Return None
   /\ write_products (shop []) the_crawler
        [py "https://mamaearth.in/product/gone";
         py "https://mamaearth.in/product/onion-oil"] []
      = write_products (shop []) the_crawler
          [py "https://mamaearth.in/product/onion-oil"] [])
  /\ (snd (crawl_page (shop []) the_crawler
             (py "https://mamaearth.in/product/untitled") (py "product"))
      = Return None
      /\ write_products (shop []) the_crawler
           [py "https://mamaearth.in/product/untitled"] []
         = write_products (shop []) the_crawler [] []).
Proof.
  split.
  - apply (status_and_selector_errors_are_captured (shop []) the_crawler
             (py "https://mamaearth.in/product/gone")
             [py "https://mamaearth.in/product/onion-oil"] []
             [py "product"; py "product/gone"]
             {| status_code := 404; content := py "not found" |});
      [vm_compute; reflexivity | vm_compute; reflexivity |].
    left. vm_compute. reflexivity.
  - apply (status_and_selector_errors_are_captured (shop []) the_crawler
             (py "https://mamaearth.in/product/untitled") [] []
             [py "product"; py "product/untitled"]
             {| status_code := 200; content := py "untitled" |});
      [vm_compute; reflexivity | vm_compute; reflexivity |].
    right. exists untitled_page. eexists.
    repeat split; vm_compute; reflexivity.
Defined.

(** C5 fails at status 300, which is not a 2xx status and for which
    [resp.ok] holds: the page is parsed and its product is written. *)
Lemma status_300_is_crawled :
  requests_get (shop []) (py "https://mamaearth.in/product/choices")
  = Return {| status_code := 300; content := py "onion oil" |}
  /\ snd (crawl_page (shop []) the_crawler
            (py "https://mamaearth.in/product/choices") (py "product"))
     = Return (Some {| title := py "Onion Oil";
                       description := py "For hair fall control";
                       subtitle := py "150 ml";
                       product_url := py "https://mamaearth.in/product/choices";
                       sections := Some [py "product"; py "product/choices"] |})
  /\ fst (download_and_save (shop ["/product/choices"]%string) no_files
            abstracts true) sink_path
     = Some (sink_line
               {| title := py "Onion Oil";
                  description := py "For hair fall control";
                  subtitle := py "150 ml";
                  product_url := py "https://mamaearth.in/product/choices";
                  sections := Some [py "product"; py "product/choices"] |}).
Proof. repeat split; vm_compute; reflexivity. Qed.

Lemma error_status_writes_nothing_witness :
  (400 <= 404 < 600)%N
  /\ crawl_page (shop []) the_crawler
       (py "https://mamaearth.in/product/gone") (py "product")
     = ([], Return None)
  /\ write_products (shop []) the_crawler
       [py "https://mamaearth.in/product/gone";
        py "https://mamaearth.in/product/onion-oil"] []
     = write_products (shop []) the_crawler
         [py "https://mamaearth.in/product/onion-oil"] [].
Proof.
  split; [lia|].
  apply (error_status_writes_nothing (shop []) the_crawler
           (py "https://mamaearth.in/product/gone")
           [py "https://mamaearth.in/product/onion-oil"] []
           [py "product"; py "product/gone"]
           {| status_code := 404; content := py "not found" |});
    [vm_compute; reflexivity | vm_compute; reflexivity | simpl; lia].
Defined.

Lemma only_the_product_page_is_dispatched_witness :
  dispatched x_pages = Return [py "https://x/product/a"]
  /\ download_and_save x_world no_files abstracts true
     = (write_file no_files sink_path
          (sink_line {| title := py "Onion Oil";
                        description := py "For hair fall control";
                        subtitle := py "150 ml";
                        product_url := py "https://x/product/a";
                        sections := Some [py "product"; py "product/a"] |}),
        Return tt).
Proof.
  destruct (only_the_product_page_is_dispatched x_world no_files abstracts
              true eq_refl) as [Hdispatched Hrun].
  split; [exact Hdispatched|].
  rewrite Hrun. vm_compute. reflexivity.
Defined.

Lemma written_products_are_dispatched_urls_witness :
  exists products,
    fst (download_and_save
           (shop ["/about"; "/product/gone"; "/product/onion-oil";
                  "/product/onion-oil/reviews"]%string)
           no_files abstracts true)
      (os_path_join (py "data") abstracts)
    = Some (flat_map sink_line products)
    /\ Forall
         (fun product =>
            In (product_url product)
              [py "https://mamaearth.in/product/gone";
               py "https://mamaearth.in/product/onion-oil"]
            /\ is_product_url (product_url product) = true
            /\ exists secs,
                 get_path_hierarchy (product_url product) = Return secs
                 /\ sections product = Some secs)
         products.
Proof.
  apply (written_products_are_dispatched_urls
           (shop ["/about"; "/product/gone"; "/product/onion-oil";
                  "/product/onion-oil/reviews"]%string)
           no_files abstracts true
           (map (fun u => {| url := py u |})
              ["/about"; "/product/gone"; "/product/onion-oil";
               "/product/onion-oil/reviews"]%string));
    vm_compute; reflexivity.
Defined.

Lemma invalid_explicit_sitemap_degrades_witness :
  download_sitemap shop_without_sitemap the_crawler
    (Some (py "https://mamaearth.in/sitemap.xml"))
  = Return (all_pages (IndexWebsiteSitemap (site the_crawler) []))
  /\ download_sitemap shop_without_sitemap the_crawler
       (Some (py "https://mamaearth.in/sitemap.xml"))
     = Return [].
Proof.
  apply (invalid_explicit_sitemap_degrades shop_without_sitemap the_crawler
           (py "https://mamaearth.in/sitemap.xml")
           (py "https://mamaearth.in/sitemap.xml")
           (py "Unable to fetch sitemap: 404 Not Found"));
    reflexivity.
Defined.

Lemma sink_write_is_one_json_line_witness :
  exists line,
    line = dumps (dict_of onion_oil)
    /\ fst (write_products (shop []) the_crawler
              [py "https://mamaearth.in/product/onion-oil";
               py "https://mamaearth.in/product/blank"] (py "held"))
       = py "held" ++ line ++ [10%N]
         ++ fst (write_products (shop []) the_crawler
                   [py "https://mamaearth.in/product/blank"] [])
    /\ snd (write_products (shop []) the_crawler
              [py "https://mamaearth.in/product/onion-oil";
               py "https://mamaearth.in/product/blank"] (py "held"))
       = snd (write_products (shop []) the_crawler
                [py "https://mamaearth.in/product/blank"] [])
    /\ write_products (shop []) the_crawler
         [py "https://mamaearth.in/product/onion-oil";
          py "https://mamaearth.in/product/blank"] (py "held")
       = write_products (shop []) the_crawler
           [py "https://mamaearth.in/product/blank"]
           (py "held" ++ line ++ [10%N])
    /\ ~ In 10%N line
    /\ loads line
       = Some (JObject
                 [(py "title", JString (decoded (title onion_oil)));
                  (py "description",
                   JString (decoded (description onion_oil)));
                  (py "subtitle", JString (decoded (subtitle onion_oil)));
                  (py "url", JString (decoded (product_url onion_oil)));
                  (py "sections", sections_json (decoded_product onion_oil))])
    /\ (well_formed_product onion_oil = true ->
        loads line = Some (dict_of onion_oil)).
Proof.
  apply (sink_write_is_one_json_line (shop []) the_crawler
           (py "https://mamaearth.in/product/onion-oil")
           [py "https://mamaearth.in/product/blank"] (py "held") onion_oil).
  vm_compute. reflexivity.
Defined.



(** * Further properties *)

(** ** The sections of a URL *)

Lemma split_not_nil (c : N) (s : pystr) : split c s <> [].
Proof.
  destruct s as [|d s]; simpl; [discriminate|].
  destruct (split c s); [discriminate|].
  destruct (d =? c)%N; discriminate.
Qed.

Lemma join_cons (sep w : pystr) (ws : list pystr) :
  ws <> [] -> join sep (w :: ws) = w ++ sep ++ join sep ws.
Proof. destruct ws; [congruence | reflexivity]. Qed.

(** Joining what a split gave puts the separators back. *)
Lemma join_split (c : N) (s : pystr) : join [c] (split c s) = s.
Proof.
  induction s as [|d s IH]; [reflexivity|].
  cbn [split]. pose proof (split_not_nil c s) as Hnil.
  destruct (split c s) as [|w ws]; [congruence|].
  destruct (N.eqb_spec d c) as [->|_].
  - rewrite join_cons by discriminate. rewrite IH. reflexivity.
  - destruct ws as [|w' ws].
    + cbn [join] in *. rewrite IH. reflexivity.
    + rewrite join_cons by discriminate.
      rewrite join_cons in IH by discriminate.
      rewrite <- IH. reflexivity.
Qed.

Lemma length_split (c : N) (s : pystr) :
  List.length (split c s) = S (count_occ N.eq_dec s c).
Proof.
  induction s as [|d s IH]; [reflexivity|].
  cbn [split count_occ]. pose proof (split_not_nil c s) as Hnil.
  destruct (split c s) as [|w ws]; [congruence|].
  destruct (N.eqb_spec d c) as [->|Hd].
  - destruct (N.eq_dec c c); [|congruence]. cbn [List.length] in *. lia.
  - destruct (N.eq_dec d c); [congruence|]. cbn [List.length] in *. lia.
Qed.

(** The loop of [get_path_hierarchy] in closed form: after the
    directories it has seen, each further one adds the prefix made of
    the directories so far. *)
Lemma hierarchy_loop_closed (directories : list pystr) :
  forall prefix result,
    hierarchy_loop directories prefix result
    = result
      ++ map (fun k => prefix ++ join (py "/") (firstn k directories))
           (seq 1 (List.length directories)).
Proof.
  induction directories as [|d ds IH]; intros prefix result.
  - cbn. rewrite app_nil_r. reflexivity.
  - cbn [hierarchy_loop List.length seq map]. rewrite IH.
    rewrite <- app_assoc. f_equal. cbn [app firstn join]. f_equal.
    rewrite <- (seq_shift (List.length ds) 1), map_map. apply map_ext_in.
    intros k Hk. apply in_seq in Hk.
    destruct ds as [|d2 ds]; [simpl in Hk; lia|].
    destruct k as [|k]; [lia|].
    cbn [firstn]. rewrite (join_cons (py "/") d) by discriminate.
    rewrite <- !app_assoc. reflexivity.
Qed.

(** [get_path_hierarchy] on a URL whose path is not empty. *)
Lemma sections_are_cumulative_prefixes_aux (url : pystr)
    (r : urllib.ParseResult) :
  urllib.urlparse url [] = Return r ->
  truthy (urllib.path r) = true ->
  get_path_hierarchy url
  = Return (map (fun k =>
                   join (py "/")
                     (firstn k (split (chr "/")
                                  (strip (py "/") (urllib.path r)))))
              (seq 1 (List.length
                        (split (chr "/")
                           (strip (py "/") (urllib.path r)))))).
Proof.
  intros Hparse Hpath. unfold get_path_hierarchy.
  rewrite Hparse. cbn [bind]. rewrite Hpath. cbn [negb].
  rewrite hierarchy_loop_closed. reflexivity.
Qed.

(** X1: the sections of a URL with a non-empty path are the cumulative
    prefixes of its directories: the [k]-th is the first [k] directories
    of the stripped path, joined by slashes. *)
Theorem sections_are_cumulative_prefixes (url : pystr)
    (r : urllib.ParseResult) :
  urllib.urlparse url [] = Return r ->
  truthy (urllib.path r) = true ->
  let directories := split (chr "/") (strip (py "/") (urllib.path r)) in
  get_path_hierarchy url
  = Return (map (fun k => join (py "/") (firstn k directories))
              (seq 1 (List.length directories))).
Proof.
  intros Hparse Hpath directories.
  exact (sections_are_cumulative_prefixes_aux url r Hparse Hpath).
Qed.

Lemma sections_are_cumulative_prefixes_witness :
  get_path_hierarchy (py "https://mamaearth.in/product/onion-oil?size=1#top")
  = Return (map (fun k => join (py "/")
                            (firstn k [py "product"; py "onion-oil"]))
              (seq 1 2)).
Proof.
  apply (sections_are_cumulative_prefixes
           (py "https://mamaearth.in/product/onion-oil?size=1#top")
           {| urllib.scheme := py "https"; urllib.netloc := py "mamaearth.in";
              urllib.path := py "/product/onion-oil"; urllib.params := [];
              urllib.query := py "size=1"; urllib.fragment := py "top" |});
    vm_compute; reflexivity.
Defined.

Lemma last_map_seq {A : Type} (f : nat -> A) (n : nat) (d : A) :
  last (map f (seq 1 (S n))) d = f (S n).
Proof.
  rewrite seq_S, map_app. cbn [map]. apply last_last.
Qed.

(** X2: there is one section for each directory, that is one more than
    there are slashes inside the stripped path, and the last section is
    the stripped path itself. *)
Theorem last_section_is_the_stripped_path (url : pystr)
    (r : urllib.ParseResult) :
  urllib.urlparse url [] = Return r ->
  truthy (urllib.path r) = true ->
  exists secs,
    get_path_hierarchy url = Return secs
    /\ List.length secs
       = S (count_occ N.eq_dec (strip (py "/") (urllib.path r)) (chr "/"))
    /\ last secs [] = strip (py "/") (urllib.path r).
Proof.
  intros Hparse Hpath.
  rewrite (sections_are_cumulative_prefixes_aux url r Hparse Hpath).
  eexists. split; [reflexivity|].
  rewrite length_map, length_seq, length_split. split; [reflexivity|].
  rewrite last_map_seq, <- length_split, firstn_all. apply join_split.
Qed.

Lemma last_section_is_the_stripped_path_witness :
  exists secs,
    get_path_hierarchy (py "//cdn.example/a//b/")
    = Return secs
    /\ List.length secs = S (count_occ N.eq_dec (py "a//b") (chr "/"))
    /\ last secs [] = py "a//b".
Proof.
  apply (last_section_is_the_stripped_path (py "//cdn.example/a//b/")
           {| urllib.scheme := []; urllib.netloc := py "cdn.example";
              urllib.path := py "/a//b/"; urllib.params := [];
              urllib.query := []; urllib.fragment := [] |});
    vm_compute; reflexivity.
Defined.

(** X3: a URL has no section exactly when its path is empty; a path of
    slashes is not empty and yields a section. *)
Theorem no_section_iff_empty_path (url : pystr) (r : urllib.ParseResult) :
  urllib.urlparse url [] = Return r ->
  get_path_hierarchy url = Return [] <-> urllib.path r = [].
Proof.
  intros Hparse. split.
  - intros Hnone. destruct (urllib.path r) as [|c p] eqn:Hpath;
      [reflexivity|].
    rewrite (sections_are_cumulative_prefixes_aux url r Hparse) in Hnone
      by (rewrite Hpath; reflexivity).
    injection Hnone as Hnone. apply (f_equal (@List.length _)) in Hnone.
    rewrite length_map, length_seq, length_split in Hnone. discriminate.
  - intros Hpath. unfold get_path_hierarchy. rewrite Hparse. cbn [bind].
    rewrite Hpath. reflexivity.
Qed.

Lemma no_section_iff_empty_path_witness :
  get_path_hierarchy (py "https://mamaearth.in?page=2") = Return []
  <-> @nil N = [].
Proof.
  apply (no_section_iff_empty_path (py "https://mamaearth.in?page=2")
           {| urllib.scheme := py "https"; urllib.netloc := py "mamaearth.in";
              urllib.path := []; urllib.params := [];
              urllib.query := py "page=2"; urllib.fragment := [] |}).
  vm_compute. reflexivity.
Defined.

(** ** What [crawl_page] raises and prints *)

Section Worker.

Variable w : World.

(** X4: [crawl_page] raises in three cases only, with the exception it
    met: the URL cannot be parsed, [requests.get] raises, or the HTML
    parser raises on an [ok] response.  The selectors never make it
    raise. *)
Theorem crawl_page_raises_iff (self : Crawler) (url selector : pystr)
    (e : exception) :
  snd (crawl_page w self url selector) = Raise e <->
  get_path_hierarchy url = Raise e
  \/ (exists secs,
        get_path_hierarchy url = Return secs
        /\ requests_get w url = Raise e)
  \/ (exists secs resp,
        get_path_hierarchy url = Return secs
        /\ requests_get w url = Return resp
        /\ ok resp = true
        /\ BeautifulSoup w (content resp) = Raise e).
Proof.
  unfold crawl_page.
  destruct (get_path_hierarchy url) as [secs|e1].
  2:{ simpl. split.
      - intros [= ->]. left. reflexivity.
      - intros [[= ->] | [(secs & H & _) | (secs & resp & H & _)]];
          (reflexivity || discriminate). }
  destruct (requests_get w url) as [resp|e2].
  2:{ simpl. split.
      - intros [= ->]. right. left. exists secs. auto.
      - intros [H | [(secs' & _ & [= ->]) | (secs' & resp & _ & H & _)]];
          (reflexivity || discriminate). }
  destruct (ok resp) eqn:Hok; simpl.
  2:{ split; [discriminate|].
      intros [H | [(secs' & _ & H) | (secs' & resp' & _ & [= <-] & H & _)]];
        try discriminate. congruence. }
  destruct (BeautifulSoup w (content resp)) as [soup|e3] eqn:Hsoup.
  - destruct (extract soup url secs); simpl; (split; [discriminate|]);
      intros [H | [(secs' & _ & H) | (secs' & resp' & _ & [= <-] & _ & H)]];
      try discriminate; congruence.
  - simpl. split.
    + intros [= ->]. right. right. exists secs, resp. auto.
    + intros [H | [(secs' & _ & H) | (secs' & resp' & _ & [= <-] & _ & H)]];
        try discriminate. congruence.
Qed.

(** X5: [crawl_page] prints at most one line, and prints it exactly when
    the page was fetched and parsed and the selectors failed; the line
    names the URL and the call returns [None]. *)
Theorem crawl_page_prints_iff (self : Crawler) (url selector : pystr) :
  (fst (crawl_page w self url selector) = []
   \/ fst (crawl_page w self url selector)
      = [py "Error Occured in parsing data on " ++ url]
      /\ snd (crawl_page w self url selector) = Return None)
  /\ (fst (crawl_page w self url selector) <> [] <->
      exists secs resp soup e,
        get_path_hierarchy url = Return secs
        /\ requests_get w url = Return resp
        /\ ok resp = true
        /\ BeautifulSoup w (content resp) = Return soup
        /\ extract soup url secs = Raise e).
Proof.
  unfold crawl_page.
  destruct (get_path_hierarchy url) as [secs|e1];
    [|simpl; split; [auto|];
      split; [congruence | intros (? & ? & ? & ? & H & _); discriminate]].
  destruct (requests_get w url) as [resp|e2];
    [|simpl; split; [auto|];
      split; [congruence | intros (? & ? & ? & ? & _ & H & _); discriminate]].
  destruct (ok resp) eqn:Hok; simpl;
    [|split; [auto|];
      split; [congruence
             | intros (? & ? & ? & ? & _ & [= <-] & H & _); congruence]].
  destruct (BeautifulSoup w (content resp)) as [soup|e3] eqn:Hsoup;
    [|simpl; split; [auto|];
      split; [congruence
             | intros (? & ? & ? & ? & _ & [= <-] & _ & H & _); congruence]].
  destruct (extract soup url secs) as [product|e] eqn:E; simpl.
  - split; [auto|].
    split; [congruence|].
    intros (secs' & resp' & soup' & e' & [= <-] & [= <-] & _ & H & E').
    rewrite Hsoup in H. injection H as <-. congruence.
  - split; [right; auto|].
    split; [|discriminate].
    intros _. exists secs, resp, soup, e. auto.
Qed.

End Worker.

(** ** The first match *)


(** Induction on a document, with the hypothesis on every child. *)
Lemma PageElement_nested_ind (P : PageElement -> Prop) :
  (forall n c contents, Forall P contents -> P (Tag n c contents)) ->
  (forall s, P (NavigableString s)) ->
  (forall s, P (Comment s)) ->
  forall e, P e.
Proof.
  intros Htag Hstring Hcomment.
  fix IH 1. intros [n c contents|s|s]; [|apply Hstring|apply Hcomment].
  apply Htag. induction contents as [|child contents IHcontents];
    constructor; [apply IH | exact IHcontents].
Qed.






(** ** The run *)

Section MoreRun.

Variable w : World.

Lemma write_products_any_crawler (crawler1 crawler2 : Crawler)
    (page_urls : list pystr) :
  forall out,
    write_products w crawler1 page_urls out
    = write_products w crawler2 page_urls out.
Proof.
  induction page_urls as [|url rest IH]; intros out; [reflexivity|].
  cbn [write_products].
  change (crawl_page w crawler2 url (py "product"))
    with (crawl_page w crawler1 url (py "product")).
  destruct (snd (crawl_page w crawler1 url (py "product"))) as [[p|]|e];
    [apply IH | apply IH | reflexivity].
Qed.

(** X7: the flag [split_lines] is stored in the crawler and never read:
    a run gives the same files and the same outcome whatever it is. *)
Theorem split_lines_is_ignored (fs : filesystem) (file_name : pystr)
    (split_lines1 split_lines2 : bool) :
  download_and_save w fs file_name split_lines1
  = download_and_save w fs file_name split_lines2.
Proof.
  unfold download_and_save.
  change (download_sitemap w (Crawler_init page_url true split_lines2))
    with (download_sitemap w (Crawler_init page_url true split_lines1)).
  destruct (download_sitemap w _ _) as [pages|e]; [|reflexivity].
  destruct (dispatched pages) as [page_urls|e]; [|reflexivity].
  rewrite (write_products_any_crawler
             (Crawler_init page_url true split_lines1)
             (Crawler_init page_url true split_lines2)).
  reflexivity.
Qed.

End MoreRun.

Section Loop.

Variable w : World.
Variable crawler : Crawler.

(** The loop over URLs whose workers all return. *)
Lemma write_products_returning (before rest : list pystr) :
  Forall (fun url =>
            raised (snd (crawl_page w crawler url (py "product"))) = false)
    before ->
  forall out,
    write_products w crawler (before ++ rest) out
    = write_products w crawler rest
        (out ++ flat_map (written_for w crawler) before).
Proof.
  induction 1 as [|url before Hurl _ IH]; intros out.
  - cbn. rewrite app_nil_r. reflexivity.
  - cbn [app write_products flat_map]. unfold written_for at 1.
    destruct (snd (crawl_page w crawler url (py "product")))
      as [[product|]|e]; [| |discriminate].
    + rewrite IH, <- app_assoc. reflexivity.
    + rewrite IH. reflexivity.
Qed.

(** X8: the loop ends normally exactly when no worker raises, and then
    the sink has received, in the order of the URLs, the line of every
    URL that gave a product and nothing for the others. *)
Theorem loop_completes_iff_no_worker_raises (page_urls : list pystr)
    (out : pystr) :
  (snd (write_products w crawler page_urls out) = Return tt <->
   Forall (fun url =>
             raised (snd (crawl_page w crawler url (py "product"))) = false)
     page_urls)
  /\ (snd (write_products w crawler page_urls out) = Return tt ->
      fst (write_products w crawler page_urls out)
      = out ++ flat_map (written_for w crawler) page_urls).
Proof.
  assert (Hreturns : Forall (fun url =>
             raised (snd (crawl_page w crawler url (py "product"))) = false)
             page_urls ->
           write_products w crawler page_urls out
           = (out ++ flat_map (written_for w crawler) page_urls, Return tt)).
  { intros Hall.
    pose proof (write_products_returning page_urls [] Hall out) as H.
    rewrite app_nil_r in H. exact H. }
  assert (Hall : snd (write_products w crawler page_urls out) = Return tt ->
                 Forall (fun url =>
                   raised (snd (crawl_page w crawler url (py "product")))
                   = false) page_urls).
  { clear Hreturns. revert out.
    induction page_urls as [|url rest IH]; intros out Hdone; [constructor|].
    cbn [write_products] in Hdone.
    destruct (snd (crawl_page w crawler url (py "product")))
      as [[product|]|e] eqn:E; [| |discriminate].
    - constructor; [rewrite E; reflexivity | eapply IH; exact Hdone].
    - constructor; [rewrite E; reflexivity | eapply IH; exact Hdone]. }
  split; [split|].
  - exact Hall.
  - intros H. rewrite (Hreturns H). reflexivity.
  - intros H. rewrite (Hreturns (Hall H)). reflexivity.
Qed.

(** X9: when a worker raises, the loop ends with its exception; the
    sink has the lines of the URLs before it, and nothing of the URLs
    after it, whatever their pages hold. *)
Theorem loop_stops_at_first_raise (before after : list pystr)
    (url out : pystr) (e : exception) :
  Forall (fun url =>
            raised (snd (crawl_page w crawler url (py "product"))) = false)
    before ->
  snd (crawl_page w crawler url (py "product")) = Raise e ->
  write_products w crawler (before ++ url :: after) out
  = (out ++ flat_map (written_for w crawler) before, Raise e).
Proof.
  intros Hbefore Hraise. rewrite write_products_returning by assumption.
  cbn [write_products]. rewrite Hraise. reflexivity.
Qed.

End Loop.

Lemma loop_stops_at_first_raise_witness :
  write_products (shop []) the_crawler
    ([py "https://mamaearth.in/product/gone";
      py "https://mamaearth.in/product/onion-oil"]
     ++ py "https://mamaearth.in/product/down"
        :: [py "https://mamaearth.in/product/blank"]) []
  = ([] ++ flat_map (written_for (shop []) the_crawler)
             [py "https://mamaearth.in/product/gone";
              py "https://mamaearth.in/product/onion-oil"],
     Raise (RequestException (py "Connection refused"))).
Proof.
  apply (loop_stops_at_first_raise (shop []) the_crawler).
  - repeat constructor.
  - vm_compute. reflexivity.
Defined.

Section Files.

Variable w : World.

Lemma written_for_products (crawler : Crawler) (page_urls : list pystr) :
  flat_map (written_for w crawler) page_urls
  = flat_map sink_line (products_of w crawler page_urls).
Proof.
  induction page_urls as [|url rest IH]; [reflexivity|].
  cbn [flat_map products_of]. unfold written_for at 1.
  fold (products_of w crawler rest). rewrite flat_map_app, <- IH.
  destruct (snd (crawl_page w crawler url (py "product"))) as [[p|]|e];
    cbn [flat_map app]; rewrite ?app_nil_r; reflexivity.
Qed.

Lemma length_products_of (crawler : Crawler) (page_urls : list pystr) :
  (List.length (products_of w crawler page_urls) <= List.length page_urls)%nat.
Proof.
  induction page_urls as [|url rest IH]; [apply le_n|].
  cbn [products_of flat_map]. fold (products_of w crawler rest).
  rewrite length_app. cbn [List.length].
  destruct (snd (crawl_page w crawler url (py "product"))) as [[p|]|e];
    cbn [List.length]; lia.
Qed.

(** What the loop has written is what it writes for the first URLs of
    the list, up to where it stopped. *)
Lemma write_products_prefix (crawler : Crawler) (page_urls : list pystr) :
  forall out,
  exists k,
    fst (write_products w crawler page_urls out)
    = out ++ flat_map (written_for w crawler) (firstn k page_urls).
Proof.
  induction page_urls as [|url rest IH]; intros out.
  - exists O. cbn. rewrite app_nil_r. reflexivity.
  - cbn [write_products].
    destruct (snd (crawl_page w crawler url (py "product")))
      as [[product|]|e] eqn:E.
    + destruct (IH (out ++ sink_line product)) as [k Hk].
      exists (S k). rewrite Hk. cbn [firstn flat_map].
      unfold written_for at 2. rewrite E, <- app_assoc. reflexivity.
    + destruct (IH out) as [k Hk].
      exists (S k). rewrite Hk. cbn [firstn flat_map].
      unfold written_for at 2. rewrite E. reflexivity.
    + exists O. cbn. rewrite app_nil_r. reflexivity.
Qed.

(** X11: the sink never holds more lines than URLs were dispatched: a
    URL gives one line or none. *)
Theorem sink_has_at_most_one_line_per_url (fs : filesystem)
    (file_name : pystr) (split_lines : bool) (pages : list SitemapPage)
    (page_urls : list pystr) :
  download_sitemap w (Crawler_init page_url true split_lines)
    (Some (page_url ++ py "sitemap.xml")) = Return pages ->
  dispatched pages = Return page_urls ->
  exists data,
    fst (download_and_save w fs file_name split_lines)
      (os_path_join (DATA_DIR w) file_name) = Some data
    /\ (List.length (readlines data) <= List.length page_urls)%nat.
Proof.
  intros Hpages Hurls.
  rewrite (download_and_save_sink w fs file_name split_lines pages Hpages).
  rewrite Hurls.
  destruct (write_products_prefix (Crawler_init page_url true split_lines)
              page_urls []) as [k Hk].
  eexists. split; [reflexivity|]. rewrite Hk. cbn [app].
  rewrite written_for_products, readlines_sink, length_map.
  etransitivity; [apply length_products_of|].
  rewrite length_firstn. lia.
Qed.

(** X12: whatever the pages contain, a sink that a run has opened holds
    nothing but printable ASCII characters and newlines. *)
Theorem sink_is_ascii (fs : filesystem) (file_name : pystr)
    (split_lines : bool) (pages : list SitemapPage) :
  download_sitemap w (Crawler_init page_url true split_lines)
    (Some (page_url ++ py "sitemap.xml")) = Return pages ->
  exists data,
    fst (download_and_save w fs file_name split_lines)
      (os_path_join (DATA_DIR w) file_name) = Some data
    /\ Forall (fun ch => ch = 10%N \/ (32 <= ch <= 126)%N) data.
Proof.
  intros Hpages.
  rewrite (download_and_save_sink w fs file_name split_lines pages Hpages).
  eexists. split; [reflexivity|].
  destruct (dispatched pages) as [page_urls|e]; [|constructor].
  destruct (write_products_prefix (Crawler_init page_url true split_lines)
              page_urls []) as [k Hk].
  rewrite Hk. cbn [app]. rewrite written_for_products.
  apply Forall_forall. intros ch Hin. apply in_flat_map in Hin.
  destruct Hin as (product & _ & Hin). unfold sink_line in Hin.
  apply in_app_or in Hin. destruct Hin as [Hin | [<- | []]].
  - right. pose proof (printable_dumps_product product) as Hp.
    unfold printable in Hp. rewrite Forall_forall in Hp. auto.
  - left. reflexivity.
Qed.

End Files.

Lemma sink_has_at_most_one_line_per_url_witness :
  exists data,
    fst (download_and_save
           (shop ["/about"; "/product/blank"; "/product/onion-oil"]%string)
           no_files abstracts true)
      (os_path_join (py "data") abstracts) = Some data
    /\ (List.length (readlines data) <= 2)%nat.
Proof.
  apply (sink_has_at_most_one_line_per_url
           (shop ["/about"; "/product/blank"; "/product/onion-oil"]%string)
           no_files abstracts true
           (map (fun u => {| url := py u |})
              ["/about"; "/product/blank"; "/product/onion-oil"]%string)
           [py "https://mamaearth.in/product/blank";
            py "https://mamaearth.in/product/onion-oil"]);
    vm_compute; reflexivity.
Defined.

Lemma sink_is_ascii_witness :
  exists data,
    fst (download_and_save
           (shop ["/about"; "/product/blank"; "/product/onion-oil"]%string)
           no_files abstracts true)
      (os_path_join (py "data") abstracts) = Some data
    /\ Forall (fun ch => ch = 10%N \/ (32 <= ch <= 126)%N) data.
Proof.
  apply (sink_is_ascii
           (shop ["/about"; "/product/blank"; "/product/onion-oil"]%string)
           no_files abstracts true
           (map (fun u => {| url := py u |})
              ["/about"; "/product/blank"; "/product/onion-oil"]%string)).
  vm_compute. reflexivity.
Defined.

(** ** The dispatch list *)

Lemma startswith_app (sub b : pystr) : startswith (sub ++ b) sub = true.
Proof.
  induction sub as [|c sub IH]; [reflexivity|].
  cbn [app startswith]. rewrite N.eqb_refl. exact IH.
Qed.

Lemma startswith_inv (sub : pystr) :
  forall s, startswith s sub = true -> exists b, s = sub ++ b.
Proof.
  induction sub as [|c sub IH]; intros s H; [exists s; reflexivity|].
  destruct s as [|d s]; [discriminate|]. cbn [startswith] in H.
  apply andb_true_iff in H. destruct H as [Hc Hs].
  apply N.eqb_eq in Hc. subst d.
  destruct (IH s Hs) as [b ->]. exists b. reflexivity.
Qed.

(** [sub in s] holds exactly when [sub] occurs in [s]. *)
Lemma contains_iff (sub s : pystr) :
  contains sub s = true <-> exists a b, s = a ++ sub ++ b.
Proof.
  split.
  - induction s as [|d s IH]; cbn [contains]; intros H;
      apply orb_true_iff in H; destruct H as [H|H]; try discriminate.
    + destruct (startswith_inv sub [] H) as [b Hb]. exists [], b. exact Hb.
    + destruct (startswith_inv sub (d :: s) H) as [b Hb].
      exists [], b. exact Hb.
    + destruct (IH H) as (a & b & ->). exists (d :: a), b. reflexivity.
  - intros (a & b & ->). induction a as [|d a IH].
    + cbn [app]. destruct (sub ++ b) eqn:E; cbn [contains];
        rewrite <- E, startswith_app; reflexivity.
    + cbn [app contains]. rewrite IH. apply orb_true_r.
Qed.

(** X13: the filter of line 145 looks at the whole URL, not at its path:
    a URL is dispatched exactly when [/product/] occurs somewhere in it
    and [reviews] occurs nowhere in it. *)
Theorem is_product_url_iff (x : pystr) :
  is_product_url x = true <->
  (exists a b, x = a ++ py "/product/" ++ b)
  /\ ~ (exists a b, x = a ++ py "reviews" ++ b).
Proof.
  unfold is_product_url. rewrite andb_true_iff, negb_true_iff.
  rewrite <- !contains_iff.
  destruct (contains (py "reviews") x); split; intros [H1 H2];
    (split; [exact H1|]); congruence.
Qed.

(** The URLs of lines 141-143, with what was collected before. *)
Lemma full_page_urls_acc (base : pystr) (pages : list SitemapPage) :
  forall acc joined,
    Forall2 (fun page u => urljoin base (url page) = Return u) pages joined ->
    full_page_urls base pages acc = Return (acc ++ joined).
Proof.
  induction pages as [|page pages IH]; intros acc joined Hjoined;
    inversion Hjoined as [|? u ? joined' Hu Hrest]; subst.
  - cbn. rewrite app_nil_r. reflexivity.
  - cbn [full_page_urls]. rewrite Hu. cbn [bind].
    rewrite (IH _ joined' Hrest), <- app_assoc. reflexivity.
Qed.

(** X14: when every page URL of the sitemap can be joined to the site,
    the URLs handed to the pool are the joined URLs that pass the
    filter, in the order of the sitemap and as often as the sitemap
    lists them. *)
Theorem dispatched_is_filtered_joined (pages : list SitemapPage)
    (joined : list pystr) :
  Forall2 (fun page u => urljoin page_url (url page) = Return u)
    pages joined ->
  dispatched pages = Return (filter is_product_url joined).
Proof.
  intros Hjoined. unfold dispatched.
  rewrite (full_page_urls_acc page_url pages [] joined Hjoined).
  reflexivity.
Qed.

Lemma dispatched_is_filtered_joined_witness :
  dispatched
    [{| url := py "/product/onion-oil" |};
     {| url := py "blog/reviews" |};
     {| url := py "/product/onion-oil" |}]
  = Return (filter is_product_url
              [py "https://mamaearth.in/product/onion-oil";
               py "https://mamaearth.in/blog/reviews";
               py "https://mamaearth.in/product/onion-oil"]).
Proof.
  apply dispatched_is_filtered_joined.
  repeat constructor.
Defined.

(** ** The sitemap *)

(** X15: with an explicit sitemap URL the pages are those of the sitemap
    the fetcher gives, in its order, and what the fetcher raises is
    raised; the homepage of the site is not consulted.  (Leaving an
    invalid sitemap out of the index changes nothing: it has no page.) *)
Theorem explicit_sitemap_pages (w : World) (self : Crawler)
    (sitemap_url : pystr) :
  truthy sitemap_url = true ->
  download_sitemap w self (Some sitemap_url)
  = match SitemapFetcher_sitemap w sitemap_url with
    | Return sitemap => Return (all_pages sitemap)
    | Raise e => Raise e
    end.
Proof.
  intros Hurl. unfold download_sitemap.
  destruct sitemap_url as [|c sitemap_url]; [discriminate|].
  destruct (SitemapFetcher_sitemap w (c :: sitemap_url)) as [sitemap|e];
    [|reflexivity].
  cbn [bind]. destruct sitemap as [u reason|u pages|u subs]; cbn;
    rewrite ?app_nil_r; reflexivity.
Qed.

Lemma explicit_sitemap_pages_witness :
  download_sitemap (shop ["/about"; "/product/onion-oil"]%string) the_crawler
    (Some (py "https://mamaearth.in/sitemap.xml"))
  = match SitemapFetcher_sitemap
            (shop ["/about"; "/product/onion-oil"]%string)
            (py "https://mamaearth.in/sitemap.xml") with
    | Return sitemap => Return (all_pages sitemap)
    | Raise e => Raise e
    end.
Proof.
  apply (explicit_sitemap_pages
           (shop ["/about"; "/product/onion-oil"]%string) the_crawler
           (py "https://mamaearth.in/sitemap.xml")).
  reflexivity.
Defined.

(** ** The selector of an element *)

Lemma list_eqb_refl {A : Type} (eqb : A -> A -> bool) (l : list A) :
  Forall (fun a => eqb a a = true) l -> list_eqb eqb l l = true.
Proof.
  induction 1 as [|a l Ha _ IH]; [reflexivity|].
  cbn [list_eqb]. rewrite Ha, IH. reflexivity.
Qed.

(** An element equals itself. *)
Lemma PageElement_eqb_refl (e : PageElement) : PageElement_eqb e e = true.
Proof.
  induction e as [n c contents IH|s|s] using PageElement_nested_ind;
    cbn [PageElement_eqb]; try apply str_eqb_refl.
  rewrite str_eqb_refl, list_eqb_refl
    by (apply Forall_forall; intros; apply str_eqb_refl).
  cbn [andb]. induction IH as [|child contents Hchild _ IHcontents];
    [reflexivity|]. rewrite Hchild. exact IHcontents.
Qed.

(** [index] finds an element that is in the list. *)
Lemma index_In (child : PageElement) (siblings : list PageElement) :
  In child siblings -> exists i, index child siblings = Return i.
Proof.
  induction siblings as [|sibling siblings IH]; intros Hin; [destruct Hin|].
  cbn [index]. destruct (PageElement_eqb sibling child) eqn:E; [eauto|].
  destruct Hin as [->|Hin].
  - rewrite PageElement_eqb_refl in E. discriminate.
  - destruct (IH Hin) as [i ->]. cbn [bind]. eauto.
Qed.

(** A tag is among the children of its parent that have its name. *)
Lemma In_find_all_children (n : pystr) (c : list pystr)
    (contents : list PageElement) (parent : PageElement) :
  match parent with
  | Tag _ _ siblings => In (Tag n c contents) siblings
  | _ => False
  end ->
  In (Tag n c contents) (find_all_children parent (Some n)).
Proof.
  destruct parent as [m d siblings|s|s]; try contradiction.
  intros Hin. unfold find_all_children. apply filter_In. split; [exact Hin|].
  cbn [name]. apply str_eqb_refl.
Qed.

Lemma component_returns (child parent : PageElement) :
  (exists n c contents, child = Tag n c contents) ->
  match parent with
  | Tag _ _ siblings => In child siblings
  | _ => False
  end ->
  exists text, component child parent = Return text.
Proof.
  intros (n & c & contents & ->) Hin. unfold component.
  destruct (list_eqb PageElement_eqb _ _); [eauto|].
  cbn [name].
  destruct (index_In _ _ (In_find_all_children n c contents parent Hin))
    as [i ->].
  cbn [bind]. eauto.
Qed.

Lemma selector_loop_returns (parents : list PageElement) :
  forall child components,
    (exists n c contents, child = Tag n c contents) ->
    chain child parents ->
    exists result, selector_loop child parents components = Return result.
Proof.
  induction parents as [|parent parents IH];
    intros child components Htag Hchain; [cbn; eauto|].
  destruct Hchain as [Hin Hchain]. cbn [selector_loop].
  destruct (component_returns child parent Htag Hin) as [text ->].
  cbn [bind]. apply IH; [|exact Hchain].
  destruct parent as [m d siblings|s|s]; try contradiction. eauto.
Qed.

(** X17: on an element of a document, given with its chain of parents,
    [selector_soup] returns a selector (the [index] of line 68 always
    finds the element); it raises for a string or a comment that has no
    parent, and only then. *)
Theorem selector_soup_returns_iff (element : PageElement)
    (parents : list PageElement) :
  chain element parents ->
  (exists selector, selector_soup element parents = Return selector) <->
  (exists n c contents, element = Tag n c contents /\ truthy n = true)
  \/ parents <> [].
Proof.
  intros Hchain. unfold selector_soup. split.
  - intros [selector H].
    destruct element as [n c contents|s|s]; cbn [name] in H.
    + destruct (truthy n) eqn:Hn; [left; eauto|].
      destruct parents; [discriminate | right; discriminate].
    + destruct parents; [discriminate | right; discriminate].
    + destruct parents; [discriminate | right; discriminate].
  - intros Hok.
    assert (H : exists child rest,
              (if match name element with
                  | Some n => truthy n
                  | None => false
                  end
               then Return (element, parents)
               else
                 match parents with
                 | parent :: parents' => Return (parent, parents')
                 | [] =>
                     Raise (AttributeError
                       (py "'NoneType' object has no attribute 'parents'"))
                 end) = Return (child, rest)
              /\ (exists n c contents, child = Tag n c contents)
              /\ chain child rest).
    { destruct (match name element with
                | Some n => truthy n
                | None => false
                end) eqn:Hname.
      - exists element, parents. split; [reflexivity|]. split; [|exact Hchain].
        destruct element as [n c contents|s|s]; try discriminate. eauto.
      - destruct parents as [|parent parents].
        + destruct Hok as [(n & c & contents & -> & Hn) | Hne];
            [cbn [name] in Hname; congruence | congruence].
        + exists parent, parents. split; [reflexivity|].
          destruct Hchain as [Hin Hchain]. split; [|exact Hchain].
          destruct parent as [m d siblings|s|s]; try contradiction. eauto. }
    destruct H as (child & rest & -> & Htag & Hrest). cbn [bind fst snd].
    destruct (selector_loop_returns rest child [] Htag Hrest) as [result ->].
    cbn [bind]. eauto.
Qed.

Lemma selector_soup_returns_iff_witness :
  (exists selector,
     selector_soup (NavigableString (py "Onion Oil"))
       [Tag (py "h1") [py "product-name"] [NavigableString (py "Onion Oil")];
        document
          [Tag (py "h1") [py "product-name"]
             [NavigableString (py "Onion Oil")]]]
     = Return selector)
  <-> (exists n c contents,
         NavigableString (py "Onion Oil") = Tag n c contents
         /\ truthy n = true)
      \/ [Tag (py "h1") [py "product-name"] [NavigableString (py "Onion Oil")];
          document
            [Tag (py "h1") [py "product-name"]
               [NavigableString (py "Onion Oil")]]] <> [].
Proof.
  apply selector_soup_returns_iff.
  cbn. auto.
Defined.

Lemma selector_loop_only_children (parents : list PageElement) :
  forall child components,
    only_children child parents ->
    selector_loop child parents components
    = Return (components
              ++ map name_str (removelast (child :: parents))).
Proof.
  induction parents as [|parent parents IH]; intros child components Honly.
  - cbn. rewrite app_nil_r. reflexivity.
  - destruct Honly as [Hsiblings Honly]. cbn [selector_loop].
    unfold component. rewrite Hsiblings. cbn [list_eqb].
    rewrite PageElement_eqb_refl. cbn [andb bind].
    rewrite (IH parent _ Honly), <- app_assoc. reflexivity.
Qed.

(** X18: for a tag that is, like each of its parents, the only child of
    its name, the selector is the names from the top of the document
    down to the tag, joined by [" > "], with no [nth-of-type]; the
    document itself is not named. *)
Theorem selector_of_only_children (n : pystr) (c : list pystr)
    (contents : list PageElement) (parents : list PageElement) :
  truthy n = true ->
  only_children (Tag n c contents) parents ->
  selector_soup (Tag n c contents) parents
  = Return (join (py " > ")
              (rev (map name_str
                      (removelast (Tag n c contents :: parents))))).
Proof.
  intros Hn Honly. unfold selector_soup. cbn [name]. rewrite Hn.
  cbn [bind fst snd]. rewrite (selector_loop_only_children _ _ [] Honly).
  reflexivity.
Qed.

Lemma selector_of_only_children_witness :
  selector_soup (Tag (py "p") [] [NavigableString (py "For hair")])
    [Tag (py "div") [py "details"]
       [Tag (py "h2") [] [];
        Tag (py "p") [] [NavigableString (py "For hair")]];
     document
       [Tag (py "div") [py "details"]
          [Tag (py "h2") [] [];
           Tag (py "p") [] [NavigableString (py "For hair")]]]]
  = Return (join (py " > ")
              (rev (map name_str
                      (removelast
                         [Tag (py "p") [] [NavigableString (py "For hair")];
                          Tag (py "div") [py "details"]
                            [Tag (py "h2") [] [];
                             Tag (py "p") []
                               [NavigableString (py "For hair")]];
                          document
                            [Tag (py "div") [py "details"]
                               [Tag (py "h2") [] [];
                                Tag (py "p") []
                                  [NavigableString (py "For hair")]]]])))).
Proof.
  apply selector_of_only_children; [reflexivity|].
  cbn. auto.
Defined.

(** ** Lines and products *)

Lemma map_JString_inj (l m : list pystr) :
  map JString l = map JString m -> l = m.
Proof.
  revert m. induction l as [|s l IH]; intros [|t m] H; try discriminate;
    [reflexivity|].
  cbn in H. injection H as -> H. rewrite (IH m H). reflexivity.
Qed.

Lemma dict_of_inj (p q : ProductData) : dict_of p = dict_of q -> p = q.
Proof.
  destruct p as [t d s u secs], q as [t' d' s' u' secs'].
  unfold dict_of. cbn [title description subtitle product_url sections].
  intros H. injection H as -> -> -> -> Hsecs.
  f_equal. destruct secs as [l|], secs' as [l'|]; try discriminate;
    [|reflexivity].
  injection Hsecs as Hsecs. rewrite (map_JString_inj _ _ Hsecs). reflexivity.
Qed.

(** X19: the line of a product identifies it: two products of
    well-formed strings that give the same line are the same product. *)
Theorem sink_line_identifies_product (p q : ProductData) :
  well_formed_product p = true ->
  well_formed_product q = true ->
  sink_line p = sink_line q ->
  p = q.
Proof.
  intros Hp Hq Hline. unfold sink_line in Hline.
  apply app_inv_tail in Hline.
  pose proof (loads_dumps_product p) as Lp.
  pose proof (loads_dumps_product q) as Lq.
  assert (E : dict_of (decoded_product p) = dict_of (decoded_product q))
    by congruence.
  apply dict_of_inj in E.
  rewrite !decoded_product_well_formed in E by assumption.
  exact E.
Qed.

Lemma sink_line_identifies_product_witness : onion_oil = onion_oil.
Proof.
  apply sink_line_identifies_product; reflexivity.
Defined.
